(** * The watsonx.data REST client and its ingestion / catalog tools

  A shallow embedding of
    - [src/lakehouse_mcp/client/watsonx.py]  (class [WatsonXClient]),
    - [src/lakehouse_mcp/tools/ingestion/*.py] and
      [src/lakehouse_mcp/tools/catalog/create_schema.py] (the tool handlers),
  followed by the properties the specification states about them.

  Conventions.
    - A decoded JSON document is a value of [json]; a Python [dict] keeps
      its insertion order, so an object is an association list.
    - A coroutine is a computation in the monad [M]: it yields either a
      raised exception or a value, together with the events it emitted
      (log records, tracing spans, requests handed to the HTTP library,
      requests the library put on the wire),
      in the order they happened.
    - The remote service and the IAM token manager are the outside world:
      a client is built over a [network] function and a token outcome.
      The HTTP library (httpx) belongs to that world too: [network] tells,
      for a request handed to the library, whether the library refuses it,
      what it puts on the wire and what comes back. *)

From Stdlib Require Import String Ascii List ZArith Lia Bool.
From Stdlib Require Import DecimalString PrimFloat.
Import ListNotations.

Set Warnings "-register-all".

Local Open Scope string_scope.
Local Open Scope Z_scope.

(* ===================================================================== *)
(** ** Python values and built-ins used by the sources                    *)
(* ===================================================================== *)

Module Py.

(** What [json.loads] produces, and what the handlers build as request
    bodies: [None], [bool], [int], [float], [str], [list], [dict]. *)
Inductive json : Type :=
| JNull
| JBool (b : bool)
| JInt (n : Z)
| JFloat (x : float)
| JStr (s : string)
| JArr (items : list json)
| JObj (fields : list (string * json)).

Definition dict : Type := list (string * json).

(** [d[k]] as a partial function: the first binding of [k]. *)
Fixpoint lookup {V : Type} (d : list (string * V)) (k : string) : option V :=
  match d with
  | [] => None
  | (k', v) :: rest => if String.eqb k' k then Some v else lookup rest k
  end.

(** [d.get(k, default)]. *)
Definition dict_get (d : dict) (k : string) (default : json) : json :=
  match lookup d k with
  | Some v => v
  | None => default
  end.

(** [d[k] = v]: an existing key keeps its position, a new key goes last. *)
Fixpoint dict_set {V : Type} (d : list (string * V)) (k : string) (v : V)
  : list (string * V) :=
  match d with
  | [] => [(k, v)]
  | (k', v') :: rest =>
      if String.eqb k' k then (k', v) :: rest else (k', v') :: dict_set rest k v
  end.

(** [s.startswith(p)]. *)
Definition startswith (s p : string) : bool := String.prefix p s.

(** [s.split(sep)] for a one-character separator: never empty. *)
Fixpoint split (sep : ascii) (s : string) : list string :=
  match s with
  | EmptyString => [EmptyString]
  | String c rest =>
      if Ascii.eqb c sep then EmptyString :: split sep rest
      else match split sep rest with
           | [] => [String c EmptyString]
           | w :: ws => String c w :: ws
           end
  end.

(** [l.append(x)]. *)
Definition append {A : Type} (l : list A) (x : A) : list A := (l ++ [x])%list.

(** [sep.join(parts)]. *)
Definition join (sep : string) (parts : list string) : string :=
  String.concat sep parts.

(** [str(n)] for an [int]. *)
Definition str_of_int (n : Z) : string :=
  NilZero.string_of_int (Z.to_int n).

(** Truth value of a decoded JSON value ([x or y], [if x:]). *)
Definition truthy (v : json) : bool :=
  match v with
  | JNull => false
  | JBool b => b
  | JInt n => negb (n =? 0)
  | JFloat x => negb (PrimFloat.eqb x 0%float)
  | JStr s => negb (String.eqb s "")
  | JArr items => match items with [] => false | _ => true end
  | JObj fields => match fields with [] => false | _ => true end
  end.

(** [len(v)]: defined on [str], [list] and [dict] only; [None] stands for
    the [TypeError] Python raises on every other value. *)
Definition len (v : json) : option Z :=
  match v with
  | JStr s => Some (Z.of_nat (String.length s))
  | JArr items => Some (Z.of_nat (List.length items))
  | JObj fields => Some (Z.of_nat (List.length fields))
  | JNull | JBool _ | JInt _ | JFloat _ => None
  end.

(** An optional [str] argument ([str | None]) as a JSON value. *)
Definition of_opt_str (o : option string) : json :=
  match o with
  | Some s => JStr s
  | None => JNull
  end.

(** The line feed character, written [\n] in the sources. *)
Definition nl : string := String (ascii_of_nat 10) EmptyString.

(** A field reached through nested objects: [v[k1][k2]...]. *)
Fixpoint at_path (v : json) (ks : list string) : option json :=
  match ks with
  | [] => Some v
  | k :: ks' =>
      match v with
      | JObj fields =>
          match lookup fields k with
          | Some v' => at_path v' ks'
          | None => None
          end
      | _ => None
      end
  end.

End Py.
Import Py.

(* ===================================================================== *)
(** ** The HTTP library as the client uses it (httpx)                     *)
(* ===================================================================== *)

Module Httpx.

Inductive Verb : Type := GET | POST | PATCH | DELETE.

Definition Headers : Type := list (string * string).

(** A request: the arguments of one call of [AsyncClient.get], [.post],
    [.patch] or [.delete] as the sources hand them to the library, and also
    what the library puts on the wire. [req_url] is the URL, [req_headers]
    the headers the sources configure (client defaults merged with the
    per-call ones), [req_json] the [json=] argument. *)
Record Request : Type := mkRequest {
  req_verb : Verb;
  req_url : string;
  req_headers : Headers;
  req_json : option json
}.

(** Why [response.json()] raises instead of returning a value: the body
    is not JSON text ([json.JSONDecodeError]), its bytes are not text
    ([UnicodeDecodeError]), or it nests deeper than the decoder recurses
    ([RecursionError]). *)
Inductive decode_error : Type := NotJSON | NotText | TooDeep.

(** What [response.json()] does with a body. *)
Inductive decoding : Type :=
| Decoded (v : json)
| Undecodable (why : decode_error).

(** A response as the client observes it: [status_code], and what
    [response.json()] does. *)
Record Response : Type := mkResponse {
  status_code : Z;
  json_body : decoding
}.

(** Per-call headers are laid over the client's defaults; a per-call header
    replaces a default of the same name. *)
Definition merge_headers (defaults extra : Headers) : Headers :=
  (filter (fun kv => match lookup extra (fst kv) with
                     | Some _ => false
                     | None => true
                     end) defaults ++ extra)%list.

(** [Response.is_success]: a 2xx status. *)
Definition is_success (r : Response) : bool :=
  (200 <=? status_code r) && (status_code r <=? 299).

End Httpx.
Import Httpx.

(* ===================================================================== *)
(** ** Exceptions, events and the monad of coroutines                     *)
(* ===================================================================== *)

(** The exceptions that can cross the client and the handlers. All are
    subclasses of [Exception]. [JSONDecodeError] and [UnicodeDecodeError]
    are subclasses of [ValueError]; [RecursionError] is not. [Raised]
    stands for whatever else the HTTP library, the transport or the token
    manager raises (connection failures, time-outs, IAM errors),
    identified by its class name and text. *)
Inductive exn : Type :=
| RuntimeError (text : string)
| AttributeError (text : string)
| TypeError (text : string)
| IndexError (text : string)
| KeyError (key : string)
| ValueError (text : string)
| JSONDecodeError
| UnicodeDecodeError
| RecursionError
| HTTPStatusError (response : Response)
| Raised (class_name text : string).

(** [isinstance(e, ValueError)]. *)
Definition is_ValueError (e : exn) : bool :=
  match e with
  | ValueError _ | JSONDecodeError | UnicodeDecodeError => true
  | _ => false
  end.

(** The exception [response.json()] raises on a body it cannot decode. *)
Definition decode_exn (why : decode_error) : exn :=
  match why with
  | NotJSON => JSONDecodeError
  | NotText => UnicodeDecodeError
  | TooDeep => RecursionError
  end.

(** What becomes of a request handed to the HTTP library: the library
    raises before anything is put on the wire (a body it cannot encode, a
    URL it does not support); or it puts [wire] on the wire and the
    transport raises (connection failure, time-out); or it puts [wire] on
    the wire and the remote end answers. *)
Inductive Exchange : Type :=
| Refused (e : exn)
| Failed (wire : Request) (e : exn)
| Answered (wire : Request) (response : Response).

(** [isinstance(e, KeyError)]. *)
Definition is_KeyError (e : exn) : bool :=
  match e with
  | KeyError _ => true
  | _ => false
  end.

(** The HTTP status an exception object carries ([e.response.status_code]),
    if it carries one. *)
Definition carried_status (e : exn) : option Z :=
  match e with
  | HTTPStatusError r => Some (status_code r)
  | _ => None
  end.

(** The text of a [RuntimeError] ([str(e)], its single argument). *)
Definition runtime_text (e : exn) : option string :=
  match e with
  | RuntimeError text => Some text
  | _ => None
  end.

Inductive Level : Type := Debug | Info | Error.

(** Keyword arguments of a structured log record. [LErr e] is [str(e)]. *)
Inductive log_value : Type :=
| LStr (s : string)
| LInt (n : Z)
| LOptInt (n : option Z)
| LJson (v : json)
| LErr (e : exn).

(** What a coroutine leaves behind: log records, tracing spans, the
    requests it hands to the HTTP library ([Sent]: the arguments of one
    call of [AsyncClient.get], [.post], [.patch] or [.delete]) and the
    requests the library then puts on the wire ([Dispatched]). *)
Inductive Event : Type :=
| Log (level : Level) (event : string) (kwargs : list (string * log_value))
| SpanStart (name : string)
| SpanAttr (key : string) (value : log_value)
| SpanEnd (name : string)
| Sent (request : Request)
| Dispatched (wire : Request).

Definition Trace : Type := list Event.

(** A coroutine run to completion: the exception raised or the value
    returned, and the events emitted on the way. *)
Definition M (A : Type) : Type := (exn + A) * Trace.

Definition ret {A : Type} (x : A) : M A := (inr x, []).

Definition raise {A : Type} (e : exn) : M A := (inl e, []).

Definition bind {A B : Type} (c : M A) (k : A -> M B) : M B :=
  match c with
  | (inl e, t) => (inl e, t)
  | (inr x, t) => let (r, t') := k x in (r, (t ++ t')%list)
  end.

Definition emit (ev : Event) : M unit := (inr tt, [ev]).

(** [try: c  except (classes): h], with [caught] deciding [isinstance]. *)
Definition try_except {A : Type} (c : M A) (caught : exn -> bool)
  (h : exn -> M A) : M A :=
  match c with
  | (inl e, t) => if caught e then let (r, t') := h e in (r, (t ++ t')%list)
                  else (inl e, t)
  | (inr x, t) => (inr x, t)
  end.

(** [with tracer.start_as_current_span(name) as span: c]: the span is ended
    however [c] leaves the block. *)
Definition with_span {A : Type} (name : string) (c : M A) : M A :=
  let (r, t) := c in (r, (SpanStart name :: t ++ [SpanEnd name])%list).

Declare Scope coroutine_scope.
Delimit Scope coroutine_scope with co.
Notation "x <- c ;; k" := (bind c (fun x => k))
  (at level 61, c at next level, right associativity) : coroutine_scope.
Notation "c ;; k" := (bind c (fun _ => k))
  (at level 61, right associativity) : coroutine_scope.
Local Open Scope coroutine_scope.

Definition result {A : Type} (c : M A) : exn + A := fst c.
Definition trace {A : Type} (c : M A) : Trace := snd c.

(** The requests a trace shows as handed to the HTTP library ([Sent]), in
    order. *)
Fixpoint requests_sent (t : Trace) : list Request :=
  match t with
  | [] => []
  | Sent r :: t' => r :: requests_sent t'
  | _ :: t' => requests_sent t'
  end.

(** The requests a trace shows as put on the wire ([Dispatched]), in
    order. *)
Fixpoint requests_dispatched (t : Trace) : list Request :=
  match t with
  | [] => []
  | Dispatched w :: t' => w :: requests_dispatched t'
  | _ :: t' => requests_dispatched t'
  end.

(* ===================================================================== *)
(** ** [lakehouse_mcp/client/watsonx.py]                                  *)
(* ===================================================================== *)

Module Client.

(** [WatsonXConfig] (declared in [lakehouse_mcp.config]): the fields the
    client reads. *)
Record WatsonXConfig : Type := mkConfig {
  base_url : string;
  api_key : string;
  instance_id : string;
  tls_insecure_skip_verify : bool;
  timeout_seconds : Z
}.

(** [IAMAuthenticator]: [get_token] is the outcome of
    [authenticator.token_manager.get_token()], a bearer token or the
    exception the IBM SDK raises. *)
Record IAMAuthenticator : Type := mkAuthenticator {
  apikey : string;
  disable_ssl_verification : bool;
  get_token : exn + string
}.

(** [httpx.AsyncClient]: its settings, and [network], what the library
    and the remote end make of each request handed to the library. *)
Record AsyncClient : Type := mkAsyncClient {
  timeout : Z;
  verify : bool;
  headers : Headers;
  network : Request -> Exchange
}.

Record WatsonXClient : Type := mkClient {
  config : WatsonXConfig;
  authenticator : IAMAuthenticator;
  client : AsyncClient
}.

(** [AsyncClient.get/post/patch/delete(url, json=..., headers=...)]: the
    request is handed to the library ([Sent]); the library raises without
    dispatching anything, or dispatches what it made of the request
    ([Dispatched]) and the response is returned or the transport's
    exception raised. *)
Definition request (c : AsyncClient) (verb : Verb) (url : string)
  (body : option json) (extra : Headers) : M Response :=
  let req := mkRequest verb url (merge_headers (headers c) extra) body in
  emit (Sent req) ;;
  match network c req with
  | Refused e => raise e
  | Failed wire e => emit (Dispatched wire) ;; raise e
  | Answered wire response => emit (Dispatched wire) ;; ret response
  end.

(** [response.json()]. *)
Definition response_json (response : Response) : M json :=
  match json_body response with
  | Decoded v => ret v
  | Undecodable why => raise (decode_exn why)
  end.

(** [response.raise_for_status()]: returns on a 2xx status, raises
    [HTTPStatusError] on every other one. *)
Definition raise_for_status (response : Response) : M unit :=
  if is_success response then ret tt else raise (HTTPStatusError response).

(** The class name Python prints for a decoded JSON value. *)
Definition type_name (v : json) : string :=
  match v with
  | JNull => "NoneType"
  | JBool _ => "bool"
  | JInt _ => "int"
  | JFloat _ => "float"
  | JStr _ => "str"
  | JArr _ => "list"
  | JObj _ => "dict"
  end.

(** Looking up the method [get] on a value: only a [dict] has it. *)
Definition method_get (v : json) : M dict :=
  match v with
  | JObj d => ret d
  | _ => raise (AttributeError
                  ("'" ++ type_name v ++ "' object has no attribute 'get'"))
  end.

(** Lines 32-62, the fields [__init__] assigns. *)
Definition new_client (cfg : WatsonXConfig) (token : exn + string)
  (net : Request -> Exchange) : WatsonXClient :=
  {| config := cfg;
     authenticator :=
       {| apikey := api_key cfg;
          disable_ssl_verification := tls_insecure_skip_verify cfg;
          get_token := token |};
     client :=
       {| timeout := timeout_seconds cfg;
          verify := negb (tls_insecure_skip_verify cfg);
          headers := [("Content-Type", "application/json");
                      ("Accept", "application/json");
                      ("AuthInstanceId", instance_id cfg)];
          network := net |} |}.

(** [WatsonXClient.__init__]. *)
Definition __init__ (cfg : WatsonXConfig) (token : exn + string)
  (net : Request -> Exchange) : M WatsonXClient :=
  let self := new_client cfg token net in
  emit (Log Debug "watsonx_client_initialized"
          [("base_url", LStr (base_url cfg));
           ("timeout", LInt (timeout_seconds cfg))]) ;;
  ret self.

(** [WatsonXClient._get_auth_header]. *)
Definition _get_auth_header (self : WatsonXClient) : M Headers :=
  match get_token (authenticator self) with
  | inl e => raise e
  | inr token => ret [("Authorization", "Bearer " ++ token)]
  end.

(** Lines 103, 157, 223, 282:
    [url = path if path.startswith("http") else f"{base_url}{path}"]. *)
Definition build_url (self : WatsonXClient) (path : string) : string :=
  if startswith path "http" then path else base_url (config self) ++ path.

Section WithRepr.

(** Python's [repr] of a decoded JSON value that is not a [str] (the text
    [str(v)] and an f-string give for it). *)
Variable repr : json -> string.

(** [str(v)], and [f"{v}"]. *)
Definition str (v : json) : string :=
  match v with
  | JStr s => s
  | _ => repr v
  end.

(** Lines 120-127, 174-184, 240-247, 299-306: the status check, the same
    in the four methods but for the name of the log record. *)
Definition check_status (event url : string) (response : Response) : M unit :=
  if status_code response >=? 400 then
    try_except
      (error_data <- response_json response ;;
       d <- method_get error_data ;;
       let error_msg :=
         dict_get d "message"
           (dict_get d "exception" (JStr (str error_data))) in
       emit (Log Error event
               [("url", LStr url);
                ("status_code", LInt (status_code response));
                ("error", LJson error_msg);
                ("response", LJson error_data)]) ;;
       raise (RuntimeError ("API Error: " ++ str error_msg ++ nl
                            ++ "Full response: " ++ str error_data)))
      (fun e => is_ValueError e || is_KeyError e)
      (fun _ => raise_for_status response)
  else ret tt.

(** [WatsonXClient.get]. *)
Definition get (self : WatsonXClient) (path : string) : M json :=
  with_span "watsonx.get"
    (emit (SpanAttr "http.path" (LStr path)) ;;
     let url := build_url self path in
     auth_headers <- _get_auth_header self ;;
     emit (Log Info "watsonx_get_request"
             [("url", LStr url); ("path", LStr path)]) ;;
     response <- request (client self) GET url None auth_headers ;;
     emit (SpanAttr "http.status_code" (LInt (status_code response))) ;;
     check_status "watsonx_get_error" url response ;;
     data <- response_json response ;;
     emit (Log Info "watsonx_get_success"
             [("url", LStr url);
              ("status_code", LInt (status_code response))]) ;;
     ret data).

(** [WatsonXClient.post]. *)
Definition post (self : WatsonXClient) (path : string) (body : json) : M json :=
  with_span "watsonx.post"
    (emit (SpanAttr "http.path" (LStr path)) ;;
     let url := build_url self path in
     auth_headers <- _get_auth_header self ;;
     emit (Log Info "watsonx_post_request"
             [("url", LStr url); ("path", LStr path)]) ;;
     response <- request (client self) POST url (Some body) auth_headers ;;
     emit (SpanAttr "http.status_code" (LInt (status_code response))) ;;
     check_status "watsonx_post_error" url response ;;
     data <- response_json response ;;
     emit (Log Info "watsonx_post_success"
             [("url", LStr url);
              ("status_code", LInt (status_code response))]) ;;
     ret data).

(** [WatsonXClient.patch]. *)
Definition patch (self : WatsonXClient) (path : string) (body : json) : M json :=
  with_span "watsonx.patch"
    (emit (SpanAttr "http.path" (LStr path)) ;;
     let url := build_url self path in
     auth_headers <- _get_auth_header self ;;
     emit (Log Info "watsonx_patch_request"
             [("url", LStr url); ("path", LStr path)]) ;;
     response <- request (client self) PATCH url (Some body) auth_headers ;;
     emit (SpanAttr "http.status_code" (LInt (status_code response))) ;;
     check_status "watsonx_patch_error" url response ;;
     data <- response_json response ;;
     emit (Log Info "watsonx_patch_success"
             [("url", LStr url);
              ("status_code", LInt (status_code response))]) ;;
     ret data).

(** [WatsonXClient.delete]. *)
Definition delete (self : WatsonXClient) (path : string) : M json :=
  with_span "watsonx.delete"
    (emit (SpanAttr "http.path" (LStr path)) ;;
     let url := build_url self path in
     auth_headers <- _get_auth_header self ;;
     emit (Log Info "watsonx_delete_request"
             [("url", LStr url); ("path", LStr path)]) ;;
     response <- request (client self) DELETE url None auth_headers ;;
     emit (SpanAttr "http.status_code" (LInt (status_code response))) ;;
     check_status "watsonx_delete_error" url response ;;
     data <- (if status_code response =? 204 then ret (JObj [])
              else response_json response) ;;
     emit (Log Info "watsonx_delete_success"
             [("url", LStr url);
              ("status_code", LInt (status_code response))]) ;;
     ret data).

(** The four methods under the one shape the specification gives them,
    [execute(verb, path, body?)]; [body] is ignored by GET and DELETE. *)
Definition execute (self : WatsonXClient) (verb : Verb) (path : string)
  (body : json) : M json :=
  match verb with
  | GET => get self path
  | POST => post self path body
  | PATCH => patch self path body
  | DELETE => delete self path
  end.

End WithRepr.

End Client.
Import Client.

(* ===================================================================== *)
(** ** [lakehouse_mcp/tools]: the tool handlers                           *)
(* ===================================================================== *)

Module Tools.

(** The arguments of [create_ingestion_job]. *)
Record IngestionArgs : Type := mkIngestionArgs {
  job_id : string;
  catalog : string;
  schema : string;
  table : string;
  file_paths : string;
  file_type : string;
  bucket_name : option string;
  bucket_type : string;
  write_mode : string;
  engine_id : option string;
  field_delimiter : string;
  line_delimiter : string;
  escape_character : string;
  header : bool;
  encoding : string;
  driver_memory : string;
  driver_cores : Z;
  executor_memory : string;
  executor_cores : Z;
  num_executors : Z
}.

(** A call that passes the five required arguments only: every other
    parameter takes the default of the signature (lines 28-42). *)
Definition default_args (job_id catalog schema table file_paths : string)
  : IngestionArgs :=
  {| job_id := job_id; catalog := catalog; schema := schema; table := table;
     file_paths := file_paths;
     file_type := "csv";
     bucket_name := None;
     bucket_type := "ibm_cos";
     write_mode := "append";
     engine_id := None;
     field_delimiter := ",";
     line_delimiter := nl;
     escape_character := "\";
     header := true;
     encoding := "UTF-8";
     driver_memory := "2G";
     driver_cores := 1;
     executor_memory := "2G";
     executor_cores := 1;
     num_executors := 1 |}.

(** [body[k1][k2] = v] on a body whose [k1] entry is a dict. *)
Definition set_nested (body : dict) (k1 k2 : string) (v : json) : dict :=
  match lookup body k1 with
  | Some (JObj inner) => dict_set body k1 (JObj (dict_set inner k2 v))
  | _ => body
  end.

(** Lines 73-75: the bucket name the body will carry. *)
Definition extract_bucket_name (a : IngestionArgs) : M (option string) :=
  match bucket_name a with
  | None =>
      if startswith (file_paths a) "s3://" then
        match nth_error (split "/" (file_paths a)) 2 with
        | Some segment => ret (Some segment)
        | None => raise (IndexError "list index out of range")
        end
      else ret None
  | Some b => ret (Some b)
  end.

(** Lines 77-115: the request body. *)
Definition ingestion_body (a : IngestionArgs) (bucket : option string) : json :=
  let body : dict :=
    [("job_id", JStr (job_id a));
     ("target", JObj [("catalog", JStr (catalog a));
                      ("schema", JStr (schema a));
                      ("table", JStr (table a));
                      ("write_mode", JStr (write_mode a))]);
     ("source", JObj [("file_paths", JStr (file_paths a));
                      ("file_type", JStr (file_type a));
                      ("bucket_details",
                        JObj [("bucket_name", of_opt_str bucket);
                              ("bucket_type", JStr (bucket_type a))])]);
     ("execute_config", JObj [("driver_memory", JStr (driver_memory a));
                              ("driver_cores", JInt (driver_cores a));
                              ("executor_memory", JStr (executor_memory a));
                              ("executor_cores", JInt (executor_cores a));
                              ("num_executors", JInt (num_executors a))])] in
  let body :=
    if String.eqb (file_type a) "csv" then
      set_nested body "source" "file_format_properties"
        (JObj [("field_delimiter", JStr (field_delimiter a));
               ("line_delimiter", JStr (line_delimiter a));
               ("escape_character", JStr (escape_character a));
               ("header", JBool (header a));
               ("encoding", JStr (encoding a))])
    else body in
  let body :=
    match engine_id a with
    | Some e => dict_set body "engine_id" (JStr e)
    | None => body
    end in
  JObj body.

Section WithRepr.

Variable repr : json -> string.

(** [create_ingestion_job]. *)
Definition create_ingestion_job (watsonx_client : WatsonXClient)
  (a : IngestionArgs) : M json :=
  bucket <- extract_bucket_name a ;;
  let body := ingestion_body a bucket in
  emit (Log Info "creating_ingestion_job"
          [("job_id", LStr (job_id a));
           ("file_paths", LStr (file_paths a));
           ("file_type", LStr (file_type a));
           ("catalog", LStr (catalog a));
           ("schema", LStr (schema a));
           ("table", LStr (table a))]) ;;
  try_except
    (let path := "/v3/lhingestion/api/v1/ingestion/jobs" in
     response <- post repr watsonx_client path body ;;
     d <- method_get response ;;
     emit (Log Info "ingestion_job_created"
             [("job_id", LJson (dict_get d "job_id" JNull));
              ("status", LJson (dict_get d "status" JNull))]) ;;
     ret response)
    (fun _ => true)
    (fun e =>
       emit (Log Error "ingestion_job_creation_failed"
               [("job_id", LStr (job_id a));
                ("catalog", LStr (catalog a));
                ("schema", LStr (schema a));
                ("table", LStr (table a));
                ("error", LErr e)]) ;;
       raise e).

(** Lines 37-47 of [list_ingestion_jobs.py]: the path with its query. *)
Definition list_path (start limit : option Z) : string :=
  let path := "/v3/lhingestion/api/v1/ingestion/jobs" in
  let query_params : list string := [] in
  let query_params :=
    match start with
    | Some s => append query_params ("start=" ++ str_of_int s)
    | None => query_params
    end in
  let query_params :=
    match limit with
    | Some l => append query_params ("limit=" ++ str_of_int l)
    | None => query_params
    end in
  match query_params with
  | [] => path
  | _ => path ++ "?" ++ join "&" query_params
  end.

(** [list_ingestion_jobs]. *)
Definition list_ingestion_jobs (watsonx_client : WatsonXClient)
  (start limit : option Z) : M json :=
  let path := list_path start limit in
  emit (Log Info "listing_ingestion_jobs"
          [("start", LOptInt start); ("limit", LOptInt limit)]) ;;
  response <- get repr watsonx_client path ;;
  d <- method_get response ;;
  job_count <- match len (dict_get d "ingestion_jobs" (JArr [])) with
               | Some n => ret n
               | None =>
                   raise (TypeError
                            ("object of type '"
                             ++ type_name (dict_get d "ingestion_jobs" (JArr []))
                             ++ "' has no len()"))
               end ;;
  emit (Log Info "ingestion_jobs_listed" [("job_count", LInt job_count)]) ;;
  ret response.

(** [get_ingestion_job]. *)
Definition get_ingestion_job (watsonx_client : WatsonXClient)
  (job_id : string) : M json :=
  emit (Log Info "getting_ingestion_job" [("job_id", LStr job_id)]) ;;
  let path := "/v3/lhingestion/api/v1/ingestion/jobs/" ++ job_id in
  response <- get repr watsonx_client path ;;
  d <- method_get response ;;
  emit (Log Info "ingestion_job_retrieved"
          [("job_id", LStr job_id);
           ("status", LJson (dict_get d "status" JNull))]) ;;
  ret response.

(** [delete_ingestion_job]. *)
Definition delete_ingestion_job (watsonx_client : WatsonXClient)
  (job_id : string) : M json :=
  emit (Log Info "deleting_ingestion_job" [("job_id", LStr job_id)]) ;;
  try_except
    (let path := "/v3/ingestion_jobs/" ++ job_id in
     response <- delete repr watsonx_client path ;;
     emit (Log Info "ingestion_job_deleted" [("job_id", LStr job_id)]) ;;
     ret response)
    (fun _ => true)
    (fun e =>
       emit (Log Error "ingestion_job_deletion_failed"
               [("job_id", LStr job_id); ("error", LErr e)]) ;;
       raise e).

(** [create_schema]. *)
Definition create_schema (watsonx_client : WatsonXClient)
  (catalog_id schema_name engine_id custom_path storage_name : string)
  : M json :=
  emit (Log Info "creating_schema"
          [("catalog_id", LStr catalog_id);
           ("schema_name", LStr schema_name);
           ("engine_id", LStr engine_id)]) ;;
  try_except
    (let body : dict :=
       [("name", JStr schema_name);
        ("custom_path",
          JStr (if negb (String.eqb custom_path "") then custom_path else ""))] in
     let body :=
       if negb (String.eqb storage_name "")
       then dict_set body "storage_name" (JStr storage_name)
       else body in
     let path := "/v3/catalogs/" ++ catalog_id
                 ++ "/schemas?engine_id=" ++ engine_id in
     response <- post repr watsonx_client path (JObj body) ;;
     emit (Log Info "schema_created"
             [("catalog_id", LStr catalog_id);
              ("schema_name", LStr schema_name)]) ;;
     ret (if truthy response then response else JObj []))
    (fun _ => true)
    (fun e =>
       emit (Log Error "schema_creation_failed"
               [("catalog_id", LStr catalog_id);
                ("schema_name", LStr schema_name);
                ("error", LErr e)]) ;;
       raise e).

End WithRepr.

End Tools.
Import Tools.

(* ===================================================================== *)
(** ** Reference definitions and sample data                              *)
(* ===================================================================== *)

Module Samples.

(** Python's [repr] on the fragment of JSON values made of [None],
    booleans, integers, strings of printable ASCII characters without quote
    or backslash, and lists and dicts of these. Floats lie outside the
    fragment; they are shown as [<float>]. *)
Fixpoint repr_ascii (v : json) : string :=
  match v with
  | JNull => "None"
  | JBool true => "True"
  | JBool false => "False"
  | JInt n => str_of_int n
  | JFloat _ => "<float>"
  | JStr s => "'" ++ s ++ "'"
  | JArr items => "[" ++ join ", " (map repr_ascii items) ++ "]"
  | JObj fields =>
      "{" ++ join ", "
               (map (fun kv => match kv with
                               | (k, x) => "'" ++ k ++ "': " ++ repr_ascii x
                               end) fields) ++ "}"
  end.

(** The configuration of the test suite. *)
Definition test_config : WatsonXConfig :=
  {| base_url := "https://test.watsonx.com/api";
     api_key := "test-api-key";
     instance_id := "crn:test-instance";
     tls_insecure_skip_verify := false;
     timeout_seconds := 30 |}.

(** A library that puts every request on the wire as it is, and a remote
    end that answers each with the same response. *)
Definition always (r : Response) : Request -> Exchange :=
  fun req => Answered req r.

(** A client of the test configuration holding a token, facing [always r]. *)
Definition client_answering (r : Response) : WatsonXClient :=
  new_client test_config (inr "tok-1") (always r).

(** A client whose token manager fails. *)
Definition client_without_token : WatsonXClient :=
  new_client test_config (inl (Raised "ApiException" "Provided API key could not be found"))
    (always (mkResponse 200 (Decoded (JObj [])))).

Definition job_started : json :=
  JObj [("job_id", JStr "job-123"); ("status", JStr "starting")].

Definition not_found : json :=
  JObj [("error", JStr "Ingestion job not found")].

End Samples.
Import Samples.

(** ** Following the specification's words *)





(** ** Observations on a call *)

(** The request a verb method hands to the library once it holds [token]. *)
Definition request_of (self : WatsonXClient) (verb : Verb) (path : string)
  (body : json) (token : string) : Request :=
  {| req_verb := verb;
     req_url := build_url self path;
     req_headers := merge_headers (headers (client self))
                      [("Authorization", "Bearer " ++ token)];
     req_json := match verb with
                 | POST | PATCH => Some body
                 | GET | DELETE => None
                 end |}.

(** A call to one of the tool handlers. *)
Inductive ToolCall : Type :=
| CreateIngestionJob (a : IngestionArgs)
| ListIngestionJobs (start limit : option Z)
| GetIngestionJob (job_id : string)
| DeleteIngestionJob (job_id : string)
| CreateSchema (catalog_id schema_name engine_id custom_path storage_name : string).

Definition run_tool (repr : json -> string) (c : WatsonXClient)
  (call : ToolCall) : M json :=
  match call with
  | CreateIngestionJob a => create_ingestion_job repr c a
  | ListIngestionJobs start limit => list_ingestion_jobs repr c start limit
  | GetIngestionJob job_id => get_ingestion_job repr c job_id
  | DeleteIngestionJob job_id => delete_ingestion_job repr c job_id
  | CreateSchema catalog_id schema_name engine_id custom_path storage_name =>
      create_schema repr c catalog_id schema_name engine_id custom_path
        storage_name
  end.

(** The client method each handler awaits, with the arguments the handler
    gives it: [create_ingestion_job.py] line 129, [list_ingestion_jobs.py]
    line 54, [get_ingestion_job.py] line 40, [delete_ingestion_job.py]
    line 45, [create_schema.py] line 69. *)
Definition client_call (repr : json -> string) (c : WatsonXClient)
  (call : ToolCall) : M json :=
  match call with
  | CreateIngestionJob a =>
      bucket <- extract_bucket_name a ;;
      post repr c "/v3/lhingestion/api/v1/ingestion/jobs"
        (ingestion_body a bucket)
  | ListIngestionJobs start limit => get repr c (list_path start limit)
  | GetIngestionJob job_id =>
      get repr c ("/v3/lhingestion/api/v1/ingestion/jobs/" ++ job_id)
  | DeleteIngestionJob job_id =>
      delete repr c ("/v3/ingestion_jobs/" ++ job_id)
  | CreateSchema catalog_id schema_name engine_id custom_path storage_name =>
      let body : dict :=
        [("name", JStr schema_name);
         ("custom_path",
           JStr (if negb (String.eqb custom_path "") then custom_path else ""))] in
      let body :=
        if negb (String.eqb storage_name "")
        then dict_set body "storage_name" (JStr storage_name)
        else body in
      post repr c ("/v3/catalogs/" ++ catalog_id
                   ++ "/schemas?engine_id=" ++ engine_id) (JObj body)
  end.

(** The segment a path has between its second and third slash. *)
Definition third_segment (path : string) : option string :=
  nth_error (split "/" path) 2.

(** No character of [s] is [c]. *)
Fixpoint free_of (c : ascii) (s : string) : bool :=
  match s with
  | EmptyString => true
  | String c' rest => negb (Ascii.eqb c' c) && free_of c rest
  end.

(** The name a verb has in span and log record names. *)
Definition verb_name (verb : Verb) : string :=
  match verb with
  | GET => "get"
  | POST => "post"
  | PATCH => "patch"
  | DELETE => "delete"
  end.

(** What a verb method emits up to and including the call of the library,
    once it holds [token]: the span opens, the path is recorded, the
    request is logged, the request is handed to the library. *)
Definition dispatch_events (self : WatsonXClient) (verb : Verb)
  (path : string) (body : json) (token : string) : Trace :=
  [SpanStart ("watsonx." ++ verb_name verb);
   SpanAttr "http.path" (LStr path);
   Log Info ("watsonx_" ++ verb_name verb ++ "_request")
     [("url", LStr (build_url self path)); ("path", LStr path)];
   Sent (request_of self verb path body token)].

(** A remote end that cannot be reached. *)
Definition unreachable : Request -> Exchange :=
  fun req => Failed req (Raised "ConnectError" "All connection attempts failed").

(** A library that refuses every request before dispatch, as httpx does
    for a JSON body holding a number that is not finite. *)
Definition refusing : Request -> Exchange :=
  fun _ => Refused (ValueError "Out of range float values are not JSON compliant").



(** The request of the client method a tool call awaits, once the client
    holds [token]: the verb, path and body of [client_call]. *)
Definition tool_request (c : WatsonXClient) (call : ToolCall)
  (token : string) : Request :=
  match call with
  | CreateIngestionJob a =>
      request_of c POST "/v3/lhingestion/api/v1/ingestion/jobs"
        (ingestion_body a
           match result (extract_bucket_name a) with
           | inr bucket => bucket
           | inl _ => None
           end)
        token
  | ListIngestionJobs start limit =>
      request_of c GET (list_path start limit) JNull token
  | GetIngestionJob job_id =>
      request_of c GET ("/v3/lhingestion/api/v1/ingestion/jobs/" ++ job_id)
        JNull token
  | DeleteIngestionJob job_id =>
      request_of c DELETE ("/v3/ingestion_jobs/" ++ job_id) JNull token
  | CreateSchema catalog_id schema_name engine_id custom_path storage_name =>
      request_of c POST
        ("/v3/catalogs/" ++ catalog_id ++ "/schemas?engine_id=" ++ engine_id)
        (JObj (("name", JStr schema_name)
               :: ("custom_path", JStr custom_path)
               :: (if String.eqb storage_name "" then []
                   else [("storage_name", JStr storage_name)])))
        token
  end.

(** The CSV options of an ingestion job as the body carries them. *)
Definition csv_properties (a : IngestionArgs) : json :=
  JObj [("field_delimiter", JStr (field_delimiter a));
        ("line_delimiter", JStr (line_delimiter a));
        ("escape_character", JStr (escape_character a));
        ("header", JBool (header a));
        ("encoding", JStr (encoding a))].

(** ** Proof automation *)

(** Unfolding a verb method down to the primitives of [M]. *)
Ltac unfold_call :=
  unfold execute, get, post, patch, delete, with_span,
    check_status, request, response_json, raise_for_status,
    _get_auth_header, method_get, try_except, bind, emit, ret, raise,
    result, trace in *.

(** Unfolding a handler, leaving the client methods folded. *)
Ltac unfold_tools :=
  unfold run_tool, client_call, create_ingestion_job, list_ingestion_jobs,
    get_ingestion_job, delete_ingestion_job, create_schema,
    method_get, try_except, bind, emit, ret, raise, result, trace in *.

(** Case analysis on the tests a call makes, until the goal computes. *)
Ltac split_tests :=
  repeat first
    [ reflexivity
    | progress simpl
    | match goal with
      | |- context [if ?b then _ else _] => destruct b eqn:?
      end ].

(* ===================================================================== *)
(** * Properties                                                          *)
(* ===================================================================== *)

(** The requests a call hands to the library: none when the token manager
    raises, otherwise the single request [request_of] describes. *)
Lemma execute_requests (repr : json -> string) (self : WatsonXClient)
  (verb : Verb) (path : string) (body : json) :
  requests_sent (trace (execute repr self verb path body)) =
    match get_token (authenticator self) with
    | inl _ => []
    | inr token => [request_of self verb path body token]
    end.
Proof.
  unfold request_of.
  destruct self as [cfg [ak dsv tok] [to vf hd net]]; simpl.
  destruct verb; unfold_call; simpl;
    (destruct tok as [e | token]; simpl; [reflexivity |]);
    match goal with
    | |- context [net ?r] => destruct (net r) as [e | w e | w response]
    end; simpl; try reflexivity;
    destruct (json_body response) as [[ | | | | | | ] | [ | | ]];
    split_tests.
Qed.

(** The requests a call has put on the wire: none when the token manager
    raises or the library refuses the request, otherwise the one the
    library made of the request handed to it. *)
Lemma execute_dispatched (repr : json -> string) (self : WatsonXClient)
  (verb : Verb) (path : string) (body : json) :
  requests_dispatched (trace (execute repr self verb path body)) =
    match get_token (authenticator self) with
    | inl _ => []
    | inr token =>
        match network (client self) (request_of self verb path body token) with
        | Refused _ => []
        | Failed wire _ => [wire]
        | Answered wire _ => [wire]
        end
    end.
Proof.
  unfold request_of.
  destruct self as [cfg [ak dsv tok] [to vf hd net]]; simpl.
  destruct verb; unfold_call; simpl;
    (destruct tok as [e | token]; simpl; [reflexivity |]);
    match goal with
    | |- context [net ?r] => destruct (net r) as [e | w e | w response]
    end; simpl; try reflexivity;
    destruct (json_body response) as [[ | | | | | | ] | [ | | ]];
    split_tests.
Qed.

(** A status of 400 or more is not a 2xx status. *)
Lemma error_status_not_success (response : Response) :
  (status_code response >=? 400) = true -> is_success response = false.
Proof.
  unfold is_success. intros H.
  rewrite Z.geb_le in H.
  destruct (status_code response <=? 299) eqn:E.
  - rewrite Z.leb_le in E. lia.
  - apply andb_false_r.
Qed.

(** The outcome of a call whose response has a status below 400. *)
Lemma execute_below_400 (repr : json -> string) (self : WatsonXClient)
  (verb : Verb) (path : string) (body : json) (token : string)
  (wire : Request) (response : Response) :
  get_token (authenticator self) = inr token ->
  network (client self) (request_of self verb path body token)
  = Answered wire response ->
  (status_code response >=? 400) = false ->
  result (execute repr self verb path body) =
    match verb, status_code response =? 204 with
    | DELETE, true => inr (JObj [])
    | _, _ => match json_body response with
              | Decoded data => inr data
              | Undecodable why => inl (decode_exn why)
              end
    end.
Proof.
  destruct self as [cfg [ak dsv tok] [to vf hd net]].
  unfold request_of. simpl. intros -> Hnet Hstatus.
  destruct verb; unfold_call; simpl; rewrite Hnet; simpl; rewrite Hstatus;
    simpl; destruct (json_body response); split_tests.
Qed.

(** The outcome of a call whose response has a status of 400 or more. *)
Lemma execute_from_400 (repr : json -> string) (self : WatsonXClient)
  (verb : Verb) (path : string) (body : json) (token : string)
  (wire : Request) (response : Response) :
  get_token (authenticator self) = inr token ->
  network (client self) (request_of self verb path body token)
  = Answered wire response ->
  (status_code response >=? 400) = true ->
  result (execute repr self verb path body) =
    match json_body response with
    | Undecodable why =>
        if is_ValueError (decode_exn why)
        then inl (HTTPStatusError response)
        else inl (decode_exn why)
    | Decoded (JObj d) =>
        inl (RuntimeError
               ("API Error: "
                ++ str repr (dict_get d "message"
                               (dict_get d "exception" (JStr (repr (JObj d)))))
                ++ nl ++ "Full response: " ++ repr (JObj d)))
    | Decoded v =>
        inl (AttributeError
               ("'" ++ type_name v ++ "' object has no attribute 'get'"))
    end.
Proof.
  destruct self as [cfg [ak dsv tok] [to vf hd net]].
  unfold request_of. simpl. intros -> Hnet Hstatus.
  pose proof (error_status_not_success response Hstatus) as Hfail.
  destruct verb; unfold_call; simpl; rewrite Hnet; simpl; rewrite Hstatus;
    simpl; destruct (json_body response) as [[ | | | | | | ] | [ | | ]];
    simpl; rewrite ?Hfail; reflexivity.
Qed.

(** A call whose token manager raises ends with that exception. *)
Lemma execute_without_token (repr : json -> string) (self : WatsonXClient)
  (verb : Verb) (path : string) (body : json) (e : exn) :
  get_token (authenticator self) = inl e ->
  result (execute repr self verb path body) = inl e.
Proof.
  destruct self as [cfg [ak dsv tok] [to vf hd net]]. simpl. intros ->.
  destruct verb; reflexivity.
Qed.

(** The whole run of a call whose request the library refuses. *)
Lemma execute_refused (repr : json -> string)
  (self : WatsonXClient) (verb : Verb) (path : string) (body : json)
  (token : string) (e : exn) :
  get_token (authenticator self) = inr token ->
  network (client self) (request_of self verb path body token) = Refused e ->
  execute repr self verb path body
  = (inl e,
     (dispatch_events self verb path body token
      ++ [SpanEnd ("watsonx." ++ verb_name verb)])%list).
Proof.
  destruct self as [cfg [ak dsv tok] [to vf hd net]].
  unfold dispatch_events, request_of. simpl. intros -> Hnet.
  destruct verb; unfold_call; simpl; rewrite Hnet; reflexivity.
Qed.

(** The whole run of a call whose request the transport fails to carry. *)
Lemma execute_transport_failure (repr : json -> string)
  (self : WatsonXClient) (verb : Verb) (path : string) (body : json)
  (token : string) (wire : Request) (e : exn) :
  get_token (authenticator self) = inr token ->
  network (client self) (request_of self verb path body token)
  = Failed wire e ->
  execute repr self verb path body
  = (inl e,
     (dispatch_events self verb path body token
      ++ [Dispatched wire; SpanEnd ("watsonx." ++ verb_name verb)])%list).
Proof.
  destruct self as [cfg [ak dsv tok] [to vf hd net]].
  unfold dispatch_events, request_of. simpl. intros -> Hnet.
  destruct verb; unfold_call; simpl; rewrite Hnet; reflexivity.
Qed.

(* --------------------------------------------------------------------- *)
(** ** Successful responses                                               *)
(* --------------------------------------------------------------------- *)

(** C1, as the code has it. For every call to a verb method (get, post,
    patch, delete) whose request the remote end answers with a status below
    400: DELETE with status 204 returns the empty mapping, and in every
    other case, when the body decodes as JSON, the call returns exactly the
    decoded value. *)
Theorem success_returns_parsed_body
  (repr : json -> string) (self : WatsonXClient) (verb : Verb)
  (path : string) (body : json) (token : string) (wire : Request)
  (response : Response) :
  get_token (authenticator self) = inr token ->
  network (client self) (request_of self verb path body token)
  = Answered wire response ->
  status_code response < 400 ->
  (verb = DELETE -> status_code response = 204 ->
   result (execute repr self verb path body) = inr (JObj []))
  /\
  (~ (verb = DELETE /\ status_code response = 204) ->
   forall data, json_body response = Decoded data ->
   result (execute repr self verb path body) = inr data).
Proof.
  intros Htok Hnet Hlt.
  assert (Hstatus : (status_code response >=? 400) = false).
  { destruct (status_code response >=? 400) eqn:E; [| reflexivity].
    rewrite Z.geb_le in E. lia. }
  rewrite (execute_below_400 repr self verb path body token wire response
             Htok Hnet Hstatus).
  split.
  - intros -> H204. rewrite H204. reflexivity.
  - intros Hnot data Hdata. rewrite Hdata.
    destruct verb; try reflexivity.
    destruct (status_code response =? 204) eqn:E; [| reflexivity].
    rewrite Z.eqb_eq in E. exfalso. apply Hnot.
    split; [reflexivity | exact E].
Qed.

(** The POST scenario of the test suite, and a DELETE answered 204. *)
Lemma success_returns_parsed_body_witness :
  result (execute repr_ascii
            (client_answering (mkResponse 200 (Decoded job_started)))
            POST "/v3/lhingestion/api/v1/ingestion/jobs"
            (JObj [("job_id", JStr "job-123")]))
  = inr job_started
  /\
  result (execute repr_ascii
            (client_answering (mkResponse 204 (Undecodable NotJSON)))
            DELETE "/v3/ingestion_jobs/job-123" JNull)
  = inr (JObj []).
Proof.
  split.
  - refine (proj2 (success_returns_parsed_body repr_ascii
                     (client_answering (mkResponse 200 (Decoded job_started)))
                     POST "/v3/lhingestion/api/v1/ingestion/jobs"
                     (JObj [("job_id", JStr "job-123")])
                     "tok-1" _ (mkResponse 200 (Decoded job_started))
                     _ _ _) _ _ _).
    + reflexivity.
    + reflexivity.
    + simpl. lia.
    + intros [H _]. discriminate H.
    + reflexivity.
  - refine (proj1 (success_returns_parsed_body repr_ascii
                     (client_answering (mkResponse 204 (Undecodable NotJSON)))
                     DELETE "/v3/ingestion_jobs/job-123" JNull
                     "tok-1" _ (mkResponse 204 (Undecodable NotJSON))
                     _ _ _) _ _).
    + reflexivity.
    + reflexivity.
    + simpl. lia.
    + reflexivity.
    + reflexivity.
Defined.

(** C1 fails as stated: a GET answered with status 200 and a body that is
    not JSON (an HTML page) returns nothing; the call ends with the
    decoder's exception. *)
Lemma success_undecodable_counterexample :
  network (client (client_answering (mkResponse 200 (Undecodable NotJSON))))
    (request_of (client_answering (mkResponse 200 (Undecodable NotJSON)))
       GET "/v3/lhingestion/api/v1/ingestion/jobs" JNull "tok-1")
  = Answered
      (request_of (client_answering (mkResponse 200 (Undecodable NotJSON)))
         GET "/v3/lhingestion/api/v1/ingestion/jobs" JNull "tok-1")
      (mkResponse 200 (Undecodable NotJSON))
  /\
  result (execute repr_ascii
            (client_answering (mkResponse 200 (Undecodable NotJSON)))
            GET "/v3/lhingestion/api/v1/ingestion/jobs" JNull)
  = inl JSONDecodeError.
Proof.
  split; reflexivity.
Qed.

(* --------------------------------------------------------------------- *)
(** ** Error responses                                                    *)
(* --------------------------------------------------------------------- *)

(** C2. The error raised for a status of 400 or more with a JSON error
    body is to carry the status code and to have the [message] field as
    its message, and the methods document [httpx.HTTPStatusError] for HTTP
    error responses. On a GET answered 404 with the body
    [{"message": "Job not found"}] the call raises a bare [RuntimeError]
    instead: it is not an [HTTPStatusError], it carries no status code, and
    its text is not the value of the [message] field. *)
Theorem error_object_raises_bare_runtime_error :
  exists e,
    result (execute repr_ascii
              (client_answering
                 (mkResponse 404
                    (Decoded (JObj [("message", JStr "Job not found")]))))
              GET "/v3/lhingestion/api/v1/ingestion/jobs/job-404" JNull)
    = inl e
    /\ e = RuntimeError ("API Error: Job not found" ++ nl
                         ++ "Full response: {'message': 'Job not found'}")
    /\ (forall r, e <> HTTPStatusError r)
    /\ carried_status e = None
    /\ runtime_text e <> Some "Job not found".
Proof.
  eexists. split; [reflexivity |].
  split; [reflexivity |]. split; [intros r H; discriminate H |].
  split; [reflexivity |].
  simpl. intros H. discriminate H.
Qed.

(** X18. For every call whose request the remote end answers with a status
    of 400 or more and a body that decodes to a JSON object, the call
    raises a [RuntimeError] whose text is [API Error: ] followed by the
    message, a line feed, [Full response: ] and the stringified decoded
    body, where the message is the [message] field if present, otherwise
    the [exception] field, otherwise the stringified whole body. The
    exception object carries no status code. *)
Theorem error_object_raises_runtime_error
  (repr : json -> string) (self : WatsonXClient) (verb : Verb)
  (path : string) (body : json) (token : string) (wire : Request)
  (response : Response) (d : dict) :
  get_token (authenticator self) = inr token ->
  network (client self) (request_of self verb path body token)
  = Answered wire response ->
  status_code response >= 400 ->
  json_body response = Decoded (JObj d) ->
  let message :=
    match lookup d "message" with
    | Some m => m
    | None => match lookup d "exception" with
              | Some x => x
              | None => JStr (repr (JObj d))
              end
    end in
  let raised :=
    RuntimeError ("API Error: " ++ str repr message ++ nl
                  ++ "Full response: " ++ repr (JObj d)) in
  result (execute repr self verb path body) = inl raised
  /\ carried_status raised = None.
Proof.
  intros Htok Hnet Hge Hbody.
  assert (Hstatus : (status_code response >=? 400) = true).
  { rewrite Z.geb_le. lia. }
  simpl. split; [| reflexivity].
  rewrite (execute_from_400 repr self verb path body token wire response
             Htok Hnet Hstatus).
  rewrite Hbody. unfold dict_get.
  destruct (lookup d "message"); [reflexivity |].
  destruct (lookup d "exception"); reflexivity.
Qed.

(** The DELETE scenario of the test suite: neither field is present. *)
Lemma error_object_raises_runtime_error_witness :
  result (execute repr_ascii
            (client_answering (mkResponse 404 (Decoded not_found)))
            DELETE "/v3/ingestion_jobs/job-nonexistent" JNull)
  = inl (RuntimeError
           ("API Error: {'error': 'Ingestion job not found'}" ++ nl
            ++ "Full response: {'error': 'Ingestion job not found'}")).
Proof.
  refine (proj1 (error_object_raises_runtime_error repr_ascii
                   (client_answering (mkResponse 404 (Decoded not_found)))
                   DELETE "/v3/ingestion_jobs/job-nonexistent" JNull
                   "tok-1" _ (mkResponse 404 (Decoded not_found))
                   [("error", JStr "Ingestion job not found")] _ _ _ _)).
  - reflexivity.
  - reflexivity.
  - simpl. lia.
  - reflexivity.
Defined.

(** C3. A status of 400 or more with a body that is not JSON is to raise
    the transport library's [HTTPStatusError], which carries the status
    code. On a GET answered 500 with a body of deeply nested brackets,
    which is not JSON, [response.json()] raises [RecursionError]; the
    handler of the status check catches [ValueError] and [KeyError] only,
    so the call ends with that [RecursionError]: it is not an
    [HTTPStatusError] and carries no status code. *)
Theorem deep_error_body_raises_recursion_error :
  exists e,
    result (execute repr_ascii
              (client_answering (mkResponse 500 (Undecodable TooDeep)))
              GET "/v3/lhingestion/api/v1/ingestion/jobs" JNull)
    = inl e
    /\ e = RecursionError
    /\ (forall r, e <> HTTPStatusError r)
    /\ carried_status e = None.
Proof.
  eexists. split; [reflexivity |]. split; [reflexivity |].
  split; [intros r H; discriminate H | reflexivity].
Qed.

(** X19. For every call whose request the remote end answers with a status
    of 400 or more: when decoding the body raises a [ValueError] (the body
    is not JSON text, or not text at all) the call raises the transport
    library's [HTTPStatusError], which carries the response and so its
    status code; when the body does decode, the exception raised is not an
    [HTTPStatusError] and carries no status code, so the two outcomes can
    be told apart. *)
Theorem undecodable_error_raises_status_error
  (repr : json -> string) (self : WatsonXClient) (verb : Verb)
  (path : string) (body : json) (token : string) (wire : Request)
  (response : Response) :
  get_token (authenticator self) = inr token ->
  network (client self) (request_of self verb path body token)
  = Answered wire response ->
  status_code response >= 400 ->
  (forall why, json_body response = Undecodable why ->
   is_ValueError (decode_exn why) = true ->
   result (execute repr self verb path body) = inl (HTTPStatusError response)
   /\ carried_status (HTTPStatusError response) = Some (status_code response))
  /\
  (forall v, json_body response = Decoded v ->
   exists e, result (execute repr self verb path body) = inl e
             /\ carried_status e = None
             /\ forall r, e <> HTTPStatusError r).
Proof.
  intros Htok Hnet Hge.
  assert (Hstatus : (status_code response >=? 400) = true).
  { rewrite Z.geb_le. lia. }
  rewrite (execute_from_400 repr self verb path body token wire response
             Htok Hnet Hstatus).
  split.
  - intros why -> Hvalue. rewrite Hvalue. split; reflexivity.
  - intros v ->.
    destruct v; eexists; (split; [reflexivity |]);
      (split; [reflexivity | intros r H; discriminate H]).
Qed.

(** A gateway answering 502 with an HTML page. *)
Lemma undecodable_error_raises_status_error_witness :
  result (execute repr_ascii
            (client_answering (mkResponse 502 (Undecodable NotJSON)))
            GET "/v3/lhingestion/api/v1/ingestion/jobs" JNull)
  = inl (HTTPStatusError (mkResponse 502 (Undecodable NotJSON)))
  /\ carried_status (HTTPStatusError (mkResponse 502 (Undecodable NotJSON)))
     = Some 502.
Proof.
  refine (proj1 (undecodable_error_raises_status_error repr_ascii
                   (client_answering (mkResponse 502 (Undecodable NotJSON)))
                   GET "/v3/lhingestion/api/v1/ingestion/jobs" JNull
                   "tok-1" _ (mkResponse 502 (Undecodable NotJSON)) _ _ _)
            NotJSON _ _).
  - reflexivity.
  - reflexivity.
  - simpl. lia.
  - reflexivity.
  - reflexivity.
Defined.

(* --------------------------------------------------------------------- *)
(** ** The target URL, the headers and the number of requests             *)
(* --------------------------------------------------------------------- *)

(** A string starts with each of its prefixes. *)
Lemma startswith_app (p rest : string) : startswith (p ++ rest) p = true.
Proof.
  unfold startswith. induction p as [| ch p IH]; simpl.
  - destruct rest; reflexivity.
  - destruct (ascii_dec ch ch) as [_ | Hne]; [exact IH | contradiction].
Qed.

Lemma prefix_cons (a : ascii) (p s : string) :
  String.prefix (String a p) s = true ->
  exists s', s = String a s' /\ String.prefix p s' = true.
Proof.
  destruct s as [| b s']; cbn [String.prefix]; [discriminate |].
  destruct (ascii_dec a b) as [<- |]; [eauto | discriminate].
Qed.





(** C7. Every request sent by a verb method of a client that [__init__]
    constructed carries [Content-Type: application/json],
    [Accept: application/json], the [AuthInstanceId] header with the
    configured instance identifier, and [Authorization: Bearer <token>]
    with the token the token manager gave for that call. *)
Theorem request_carries_headers
  (repr : json -> string) (cfg : WatsonXConfig) (tok : exn + string)
  (net : Request -> Exchange) (self : WatsonXClient) (verb : Verb)
  (path : string) (body : json) (r : Request) :
  result (__init__ cfg tok net) = inr self ->
  In r (requests_sent (trace (execute repr self verb path body))) ->
  exists token,
    get_token (authenticator self) = inr token
    /\ lookup (req_headers r) "Content-Type" = Some "application/json"
    /\ lookup (req_headers r) "Accept" = Some "application/json"
    /\ lookup (req_headers r) "AuthInstanceId" = Some (instance_id cfg)
    /\ lookup (req_headers r) "Authorization" = Some ("Bearer " ++ token).
Proof.
  intros Hinit. injection Hinit as <-.
  rewrite execute_requests. simpl.
  destruct tok as [e | token]; simpl.
  - intros [].
  - intros [<- | []]. exists token. repeat split; reflexivity.
Qed.

(** The request of the POST scenario of the test suite. *)
Lemma request_carries_headers_witness :
  exists token,
    get_token (authenticator
                 (client_answering (mkResponse 200 (Decoded job_started))))
    = inr token
    /\ lookup (req_headers
                 (request_of
                    (client_answering (mkResponse 200 (Decoded job_started)))
                    POST "/v3/lhingestion/api/v1/ingestion/jobs"
                    (JObj [("job_id", JStr "job-123")]) "tok-1"))
         "Authorization"
       = Some ("Bearer " ++ token).
Proof.
  destruct (request_carries_headers repr_ascii test_config (inr "tok-1")
              (always (mkResponse 200 (Decoded job_started)))
              (client_answering (mkResponse 200 (Decoded job_started)))
              POST "/v3/lhingestion/api/v1/ingestion/jobs"
              (JObj [("job_id", JStr "job-123")])
              (request_of
                 (client_answering (mkResponse 200 (Decoded job_started)))
                 POST "/v3/lhingestion/api/v1/ingestion/jobs"
                 (JObj [("job_id", JStr "job-123")]) "tok-1")
              eq_refl (or_introl eq_refl))
    as [token [Htok [_ [_ [_ Hauth]]]]].
  exists token. split; [exact Htok | exact Hauth].
Defined.

(** C9, as the code has it. A verb method never hands a second request to
    the HTTP library and never retries. When the token manager raises, the
    call ends with that exception and nothing is handed over or
    dispatched. Once the token is obtained, exactly one request is handed
    to the library, to the target URL, whatever happens next; the library
    puts at most one request on the wire for it: none when it refuses the
    request before dispatch, one when the transport fails or the remote end
    answers, whatever the status. *)
Theorem at_most_one_request
  (repr : json -> string) (self : WatsonXClient) (verb : Verb)
  (path : string) (body : json) :
  (forall e, get_token (authenticator self) = inl e ->
     result (execute repr self verb path body) = inl e
     /\ requests_sent (trace (execute repr self verb path body)) = []
     /\ requests_dispatched (trace (execute repr self verb path body)) = [])
  /\
  (forall token, get_token (authenticator self) = inr token ->
     requests_sent (trace (execute repr self verb path body))
     = [request_of self verb path body token]
     /\ requests_dispatched (trace (execute repr self verb path body))
        = match network (client self)
                  (request_of self verb path body token) with
          | Refused _ => []
          | Failed wire _ => [wire]
          | Answered wire _ => [wire]
          end)
  /\
  (List.length (requests_sent (trace (execute repr self verb path body)))
   <= 1)%nat
  /\
  (List.length
     (requests_dispatched (trace (execute repr self verb path body)))
   <= 1)%nat.
Proof.
  rewrite execute_requests, execute_dispatched.
  split; [| split; [| split]].
  - intros e H. rewrite H. split; [| split; reflexivity].
    apply execute_without_token. exact H.
  - intros token ->. split; reflexivity.
  - destruct (get_token (authenticator self)); simpl; lia.
  - destruct (get_token (authenticator self)) as [e | token]; simpl; [lia |].
    destruct (network _ _); simpl; lia.
Qed.

(** One request on the wire for a call answered 500, none for a call
    without token. *)
Lemma at_most_one_request_witness :
  requests_dispatched
    (trace (execute repr_ascii
              (client_answering (mkResponse 500 (Undecodable NotJSON)))
              GET "/v3/lhingestion/api/v1/ingestion/jobs" JNull))
  = [request_of (client_answering (mkResponse 500 (Undecodable NotJSON)))
       GET "/v3/lhingestion/api/v1/ingestion/jobs" JNull "tok-1"]
  /\
  requests_sent
    (trace (execute repr_ascii client_without_token
              GET "/v3/lhingestion/api/v1/ingestion/jobs" JNull)) = [].
Proof.
  split.
  - exact (proj2 (proj1 (proj2 (at_most_one_request repr_ascii
                                  (client_answering
                                     (mkResponse 500 (Undecodable NotJSON)))
                                  GET "/v3/lhingestion/api/v1/ingestion/jobs"
                                  JNull))
                    "tok-1" eq_refl)).
  - exact (proj1 (proj2 (proj1 (at_most_one_request repr_ascii
                                  client_without_token
                                  GET "/v3/lhingestion/api/v1/ingestion/jobs"
                                  JNull)
                           (Raised "ApiException"
                              "Provided API key could not be found")
                           eq_refl))).
Defined.

(** C9 fails as stated: no request is dispatched when the token manager
    raises, and none either, although the token is obtained, when the
    library refuses the request before dispatch. *)
Lemma one_request_counterexample :
  (result (execute repr_ascii client_without_token
             GET "/v3/lhingestion/api/v1/ingestion/jobs" JNull)
   = inl (Raised "ApiException" "Provided API key could not be found")
   /\ requests_dispatched
        (trace (execute repr_ascii client_without_token
                  GET "/v3/lhingestion/api/v1/ingestion/jobs" JNull)) = [])
  /\
  (get_token (authenticator (new_client test_config (inr "tok-1") refusing))
   = inr "tok-1"
   /\ result (execute repr_ascii
                (new_client test_config (inr "tok-1") refusing)
                POST "/v3/lhingestion/api/v1/ingestion/jobs"
                (JObj [("rate", JFloat infinity)]))
      = inl (ValueError "Out of range float values are not JSON compliant")
   /\ requests_dispatched
        (trace (execute repr_ascii
                  (new_client test_config (inr "tok-1") refusing)
                  POST "/v3/lhingestion/api/v1/ingestion/jobs"
                  (JObj [("rate", JFloat infinity)]))) = []).
Proof.
  repeat split; reflexivity.
Qed.

(* --------------------------------------------------------------------- *)
(** ** The tool handlers                                                  *)
(* --------------------------------------------------------------------- *)

Lemma requests_sent_app (t1 t2 : Trace) :
  requests_sent (t1 ++ t2)%list
  = (requests_sent t1 ++ requests_sent t2)%list.
Proof.
  induction t1 as [| ev t1 IH]; simpl; [reflexivity |].
  destruct ev; simpl; rewrite IH; reflexivity.
Qed.

(** C6. For every call to a tool handler in which the client method it
    awaits raises an exception, the handler ends with that same exception,
    and the requests sent are those of the one client call: nothing is
    translated, recovered from or sent again. *)
Theorem handler_reraises_client_error
  (repr : json -> string) (c : WatsonXClient) (call : ToolCall) (e : exn) :
  result (client_call repr c call) = inl e ->
  result (run_tool repr c call) = inl e
  /\ requests_sent (trace (run_tool repr c call))
     = requests_sent (trace (client_call repr c call)).
Proof.
  destruct call; unfold_tools.
  - destruct (extract_bucket_name a) as [[e0 | bucket] t0]; simpl.
    + intros H; split; [exact H | reflexivity].
    + destruct (post repr c _ _) as [[e1 | v] t1]; simpl;
        intros H; [| discriminate H].
      split; [exact H |].
      rewrite !requests_sent_app. simpl. rewrite !requests_sent_app. simpl.
      rewrite app_nil_r. reflexivity.
  - destruct (get repr c _) as [[e1 | v] t1]; simpl;
      intros H; [| discriminate H].
    split; [exact H | reflexivity].
  - destruct (get repr c _) as [[e1 | v] t1]; simpl;
      intros H; [| discriminate H].
    split; [exact H | reflexivity].
  - destruct (delete repr c _) as [[e1 | v] t1]; simpl;
      intros H; [| discriminate H].
    split; [exact H |].
    rewrite !requests_sent_app. simpl. rewrite app_nil_r. reflexivity.
  - destruct (post repr c _ _) as [[e1 | v] t1]; simpl;
      intros H; [| discriminate H].
    split; [exact H |].
    rewrite !requests_sent_app. simpl. rewrite app_nil_r. reflexivity.
Qed.

(** The DELETE scenario of the test suite, through the handler. *)
Lemma handler_reraises_client_error_witness :
  result (run_tool repr_ascii
            (client_answering (mkResponse 404 (Decoded not_found)))
            (DeleteIngestionJob "job-nonexistent"))
  = inl (RuntimeError
           ("API Error: {'error': 'Ingestion job not found'}" ++ nl
            ++ "Full response: {'error': 'Ingestion job not found'}")).
Proof.
  refine (proj1 (handler_reraises_client_error repr_ascii
                   (client_answering (mkResponse 404 (Decoded not_found)))
                   (DeleteIngestionJob "job-nonexistent") _ _)).
  reflexivity.
Defined.

(** Whatever the client answers, a handler sends the requests of the one
    client call it awaits, and no other. *)
Lemma handler_requests (repr : json -> string) (c : WatsonXClient)
  (call : ToolCall) :
  requests_sent (trace (run_tool repr c call))
  = requests_sent (trace (client_call repr c call)).
Proof.
  destruct call; unfold_tools.
  - destruct (extract_bucket_name a) as [[e0 | bucket] t0]; simpl;
      [reflexivity |].
    destruct (post repr c _ _) as [[e1 | v] t1]; simpl;
      [| destruct v; simpl];
      repeat (rewrite !requests_sent_app; simpl);
      rewrite ?app_nil_r; reflexivity.
  - destruct (get repr c _) as [[e1 | v] t1]; simpl; [reflexivity |].
    destruct v; simpl; rewrite ?app_nil_r; try reflexivity.
    destruct (len _); simpl;
      repeat (rewrite !requests_sent_app; simpl);
      rewrite ?app_nil_r; reflexivity.
  - destruct (get repr c _) as [[e1 | v] t1]; simpl; [reflexivity |].
    destruct v; simpl;
      repeat (rewrite !requests_sent_app; simpl);
      rewrite ?app_nil_r; reflexivity.
  - destruct (delete repr c _) as [[e1 | v] t1]; simpl;
      repeat (rewrite !requests_sent_app; simpl);
      rewrite ?app_nil_r; reflexivity.
  - destruct (post repr c _ _) as [[e1 | v] t1]; simpl;
      repeat (rewrite !requests_sent_app; simpl);
      rewrite ?app_nil_r; reflexivity.
Qed.

(** X14. On every call to [list_ingestion_jobs]: the
    path is [/v3/lhingestion/api/v1/ingestion/jobs], followed by a query
    with [start=] and/or [limit=] exactly for the arguments that are given
    and by nothing when neither is; the handler sends the requests of one
    GET on that path; and when the client returns a mapping whose
    [ingestion_jobs] entry is absent or has a length (a list, a string or a
    mapping), the handler returns that mapping unchanged. *)
Lemma list_jobs_path_and_result
  (repr : json -> string) (c : WatsonXClient) (start limit : option Z) :
  list_path start limit
  = "/v3/lhingestion/api/v1/ingestion/jobs"
    ++ match start, limit with
       | None, None => ""
       | Some s, None => "?start=" ++ str_of_int s
       | None, Some l => "?limit=" ++ str_of_int l
       | Some s, Some l =>
           "?start=" ++ str_of_int s ++ "&limit=" ++ str_of_int l
       end
  /\
  requests_sent (trace (list_ingestion_jobs repr c start limit))
  = requests_sent (trace (get repr c (list_path start limit)))
  /\
  (forall r,
     In r (requests_sent (trace (list_ingestion_jobs repr c start limit))) ->
     req_verb r = GET /\ req_url r = build_url c (list_path start limit))
  /\
  (forall d n,
     result (get repr c (list_path start limit)) = inr (JObj d) ->
     len (dict_get d "ingestion_jobs" (JArr [])) = Some n ->
     result (list_ingestion_jobs repr c start limit) = inr (JObj d)).
Proof.
  pose proof (handler_requests repr c (ListIngestionJobs start limit)) as Hreq.
  simpl in Hreq.
  split; [| split; [exact Hreq | split]].
  - destruct start, limit; reflexivity.
  - intros r. rewrite Hreq.
    change (get repr c (list_path start limit))
      with (execute repr c GET (list_path start limit) JNull).
    rewrite execute_requests.
    destruct (get_token (authenticator c)); simpl.
    + intros [].
    + intros [<- | []]. split; reflexivity.
  - intros d n. unfold_tools.
    destruct (get repr c _) as [[e1 | v] t1]; simpl;
      intros H; [discriminate H |].
    injection H as ->. simpl. intros ->. reflexivity.
Qed.

(** The pagination scenario of the test suite. *)
Lemma list_jobs_pagination_scenario :
  list_path (Some 10) (Some 10)
  = "/v3/lhingestion/api/v1/ingestion/jobs?start=10&limit=10"
  /\
  result (list_ingestion_jobs repr_ascii
            (client_answering
               (mkResponse 200
                  (Decoded (JObj [("ingestion_jobs", JArr []);
                               ("total_count", JInt 50);
                               ("page", JInt 2)]))))
            (Some 10) (Some 10))
  = inr (JObj [("ingestion_jobs", JArr []);
               ("total_count", JInt 50);
               ("page", JInt 2)]).
Proof.
  split.
  - exact (proj1 (list_jobs_path_and_result repr_ascii
                    (client_answering (mkResponse 200 (Undecodable NotJSON)))
                    (Some 10) (Some 10))).
  - refine (proj2 (proj2 (proj2 (list_jobs_path_and_result repr_ascii
                                   (client_answering
                                      (mkResponse 200
                                         (Decoded (JObj [("ingestion_jobs", JArr []);
                                                      ("total_count", JInt 50);
                                                      ("page", JInt 2)]))))
                                   (Some 10) (Some 10))))
              _ 0 _ _); reflexivity.
Defined.

(** C8. The handler is to return the mapping the client returned,
    unmodified. It does not on the mapping [{"ingestion_jobs": null}]: the
    client returns it, and the handler raises [TypeError] while counting
    the jobs for its log record ([list_ingestion_jobs.py] line 56). *)
Theorem list_jobs_null_entry_raises :
  result (get repr_ascii
            (client_answering
               (mkResponse 200 (Decoded (JObj [("ingestion_jobs", JNull)]))))
            (list_path None None))
  = inr (JObj [("ingestion_jobs", JNull)])
  /\
  result (list_ingestion_jobs repr_ascii
            (client_answering
               (mkResponse 200 (Decoded (JObj [("ingestion_jobs", JNull)]))))
            None None)
  = inl (TypeError "object of type 'NoneType' has no len()").
Proof.
  split; reflexivity.
Qed.

(* --------------------------------------------------------------------- *)
(** ** The bucket name of an ingestion job                                *)
(* --------------------------------------------------------------------- *)

Lemma split_nonempty (sep : ascii) (s : string) :
  exists w ws, split sep s = w :: ws.
Proof.
  induction s as [| ch s [w [ws IH]]]; simpl.
  - eauto.
  - destruct (Ascii.eqb ch sep); [eauto |]. rewrite IH. eauto.
Qed.

(** Up to its first separator, a string is the first segment. *)
Lemma split_first (sep : ascii) (w rest : string) :
  free_of sep w = true ->
  split sep (w ++ String sep rest) = w :: split sep rest.
Proof.
  induction w as [| ch w IH]; simpl; intros H.
  - rewrite Ascii.eqb_refl. reflexivity.
  - apply andb_prop in H. destruct H as [Hch Hw].
    apply negb_true_iff in Hch. rewrite Hch, (IH Hw). reflexivity.
Qed.

(** A path that starts with [s3://] has a third segment: indexing the
    split at 2 cannot raise [IndexError]. *)
Lemma s3_path_has_third_segment (path : string) :
  startswith path "s3://" = true ->
  exists segment, third_segment path = Some segment.
Proof.
  unfold startswith, third_segment. intros H.
  do 5 (apply prefix_cons in H; destruct H as [? [-> H]]).
  simpl.
  match goal with
  | |- context [split "/" ?rest] =>
      destruct (split_nonempty "/" rest) as [w [ws ->]]
  end.
  exists w. reflexivity.
Qed.

(** For [s3://bucket/key] the third segment is [bucket]. *)
Lemma third_segment_is_bucket (bucket key : string) :
  free_of "/" bucket = true ->
  third_segment ("s3://" ++ bucket ++ String "/" key) = Some bucket.
Proof.
  intros H. unfold third_segment. simpl.
  rewrite (split_first "/" bucket key H). reflexivity.
Qed.

Lemma body_bucket_name (a : IngestionArgs) (bucket : option string) :
  at_path (ingestion_body a bucket)
    ["source"; "bucket_details"; "bucket_name"]
  = Some (of_opt_str bucket).
Proof.
  unfold ingestion_body.
  destruct (String.eqb (file_type a) "csv"), (engine_id a); reflexivity.
Qed.

(** C10. For every call to [create_ingestion_job], the handler builds one
    body and posts it (every request it sends carries that body). When
    [bucket_name] is [None] and [file_paths] starts with [s3://], the
    body's [source.bucket_details.bucket_name] is the third [/]-separated
    segment of [file_paths], which exists; in every other case it is the
    supplied [bucket_name], [None] included. *)
Theorem bucket_name_in_request_body
  (repr : json -> string) (c : WatsonXClient) (a : IngestionArgs) :
  exists bucket body,
    result (extract_bucket_name a) = inr bucket
    /\ body = ingestion_body a bucket
    /\ requests_sent (trace (create_ingestion_job repr c a))
       = requests_sent
           (trace (post repr c "/v3/lhingestion/api/v1/ingestion/jobs" body))
    /\ (forall r,
          In r (requests_sent (trace (create_ingestion_job repr c a))) ->
          req_json r = Some body)
    /\ (bucket_name a = None ->
        startswith (file_paths a) "s3://" = true ->
        exists segment,
          third_segment (file_paths a) = Some segment
          /\ at_path body ["source"; "bucket_details"; "bucket_name"]
             = Some (JStr segment))
    /\ (~ (bucket_name a = None /\ startswith (file_paths a) "s3://" = true) ->
        at_path body ["source"; "bucket_details"; "bucket_name"]
        = Some (of_opt_str (bucket_name a))).
Proof.
  assert (Hex : exists bucket,
             extract_bucket_name a = (inr bucket, [])
             /\ (bucket_name a = None ->
                 startswith (file_paths a) "s3://" = true ->
                 exists segment, third_segment (file_paths a) = Some segment
                                 /\ bucket = Some segment)
             /\ (~ (bucket_name a = None
                    /\ startswith (file_paths a) "s3://" = true) ->
                 bucket = bucket_name a)).
  { unfold extract_bucket_name.
    destruct (bucket_name a) as [b |] eqn:Hb.
    - exists (Some b). split; [reflexivity |]. split.
      + intros H. discriminate H.
      + reflexivity.
    - destruct (startswith (file_paths a) "s3://") eqn:Hs.
      + destruct (s3_path_has_third_segment _ Hs) as [segment Hseg].
        unfold third_segment in Hseg. rewrite Hseg.
        exists (Some segment). split; [reflexivity |]. split.
        * intros _ _. exists segment. split; [exact Hseg | reflexivity].
        * intros H. exfalso. apply H. split; reflexivity.
      + exists None. split; [reflexivity |]. split.
        * intros _ H. discriminate H.
        * reflexivity. }
  destruct Hex as [bucket [Hextract [Hs3 Hother]]].
  exists bucket, (ingestion_body a bucket).
  assert (Hreq : requests_sent (trace (create_ingestion_job repr c a))
                 = requests_sent
                     (trace (post repr c
                               "/v3/lhingestion/api/v1/ingestion/jobs"
                               (ingestion_body a bucket)))).
  { pose proof (handler_requests repr c (CreateIngestionJob a)) as H.
    simpl in H. rewrite H. rewrite Hextract.
    unfold bind, trace.
    destruct (post repr c _ _) as [r t]. reflexivity. }
  split; [rewrite Hextract; reflexivity |].
  split; [reflexivity |].
  split; [exact Hreq |].
  split; [| split].
  - intros r. rewrite Hreq.
    change (post repr c "/v3/lhingestion/api/v1/ingestion/jobs"
              (ingestion_body a bucket))
      with (execute repr c POST "/v3/lhingestion/api/v1/ingestion/jobs"
              (ingestion_body a bucket)).
    rewrite execute_requests.
    destruct (get_token (authenticator c)); simpl.
    + intros [].
    + intros [<- | []]. reflexivity.
  - intros Hnone Hprefix.
    destruct (Hs3 Hnone Hprefix) as [segment [Hseg ->]].
    exists segment. split; [exact Hseg | apply body_bucket_name].
  - intros Hnot. rewrite body_bucket_name, (Hother Hnot). reflexivity.
Qed.

(** The first scenario of the test suite: [s3://bucket/data/input.csv]
    with no [bucket_name]. *)
Lemma bucket_name_in_request_body_witness :
  exists body,
    requests_sent
      (trace (create_ingestion_job repr_ascii
                (client_answering (mkResponse 200 (Decoded job_started)))
                (default_args "job-123" "iceberg_data" "default" "my_table"
                   "s3://bucket/data/input.csv")))
    = requests_sent
        (trace (post repr_ascii
                  (client_answering (mkResponse 200 (Decoded job_started)))
                  "/v3/lhingestion/api/v1/ingestion/jobs" body))
    /\ exists segment,
         third_segment "s3://bucket/data/input.csv" = Some segment
         /\ at_path body ["source"; "bucket_details"; "bucket_name"]
            = Some (JStr segment).
Proof.
  destruct (bucket_name_in_request_body repr_ascii
              (client_answering (mkResponse 200 (Decoded job_started)))
              (default_args "job-123" "iceberg_data" "default" "my_table"
                 "s3://bucket/data/input.csv"))
    as [bucket [body [_ [_ [Hreq [_ [Hs3 _]]]]]]].
  exists body. split; [exact Hreq |].
  exact (Hs3 eq_refl eq_refl).
Defined.

(* ===================================================================== *)
(** * Further properties of the client                                    *)
(* ===================================================================== *)

(** X1. Once the token is obtained, when the library refuses the request
    or the transport raises instead of answering (connection refused,
    time-out), the verb method ends with that very exception; it has
    handed over its one request, and its trace holds the request log record
    but neither a success nor an error record, the span being closed. *)
Theorem transport_error_propagates (repr : json -> string)
  (self : WatsonXClient) (verb : Verb) (path : string) (body : json)
  (token : string) :
  get_token (authenticator self) = inr token ->
  (forall e,
     network (client self) (request_of self verb path body token)
     = Refused e ->
     execute repr self verb path body
     = (inl e,
        (dispatch_events self verb path body token
         ++ [SpanEnd ("watsonx." ++ verb_name verb)])%list))
  /\
  (forall wire e,
     network (client self) (request_of self verb path body token)
     = Failed wire e ->
     execute repr self verb path body
     = (inl e,
        (dispatch_events self verb path body token
         ++ [Dispatched wire; SpanEnd ("watsonx." ++ verb_name verb)])%list)).
Proof.
  intros Htok. split.
  - intros e Hnet. exact (execute_refused repr self verb path body token e
                            Htok Hnet).
  - intros wire e Hnet.
    exact (execute_transport_failure repr self verb path body token wire e
             Htok Hnet).
Qed.

Lemma transport_error_propagates_witness :
  result (execute repr_ascii
            (new_client test_config (inr "tok-1") unreachable)
            PATCH "/v2/presto_engines/engine-123"
            (JObj [("description", JStr "Updated description")]))
  = inl (Raised "ConnectError" "All connection attempts failed").
Proof.
  exact (f_equal fst
           (proj2 (transport_error_propagates repr_ascii
                     (new_client test_config (inr "tok-1") unreachable)
                     PATCH "/v2/presto_engines/engine-123"
                     (JObj [("description", JStr "Updated description")])
                     "tok-1" eq_refl)
              _ _ eq_refl)).
Defined.

(** X2. A response of status 400 or more whose body decodes to a JSON value
    that is not an object (a list, a string, a number, [true], [null])
    makes the verb method raise [AttributeError]: the handler of the status
    check catches [ValueError] and [KeyError] only, so neither the
    [RuntimeError] of an error object nor the [HTTPStatusError] of an
    undecodable body is raised. *)
Theorem error_non_object_raises_attribute_error (repr : json -> string)
  (self : WatsonXClient) (verb : Verb) (path : string) (body : json)
  (token : string) (wire : Request) (response : Response) (v : json) :
  get_token (authenticator self) = inr token ->
  network (client self) (request_of self verb path body token)
  = Answered wire response ->
  status_code response >= 400 ->
  json_body response = Decoded v ->
  (forall d, v <> JObj d) ->
  result (execute repr self verb path body)
  = inl (AttributeError
           ("'" ++ type_name v ++ "' object has no attribute 'get'")).
Proof.
  intros Htok Hnet Hge Hbody Hnot.
  assert (Hstatus : (status_code response >=? 400) = true).
  { rewrite Z.geb_le. lia. }
  rewrite (execute_from_400 repr self verb path body token wire response
             Htok Hnet Hstatus), Hbody.
  destruct v; try reflexivity.
  exfalso. exact (Hnot fields eq_refl).
Qed.

(** A gateway answering 500 with the JSON list [["upstream timeout"]]. *)
Lemma error_non_object_raises_attribute_error_witness :
  result (execute repr_ascii
            (client_answering
               (mkResponse 500 (Decoded (JArr [JStr "upstream timeout"]))))
            GET "/v3/lhingestion/api/v1/ingestion/jobs" JNull)
  = inl (AttributeError "'list' object has no attribute 'get'").
Proof.
  refine (error_non_object_raises_attribute_error repr_ascii
            (client_answering
               (mkResponse 500 (Decoded (JArr [JStr "upstream timeout"]))))
            GET "/v3/lhingestion/api/v1/ingestion/jobs" JNull
            "tok-1" _
            (mkResponse 500 (Decoded (JArr [JStr "upstream timeout"])))
            (JArr [JStr "upstream timeout"]) _ _ _ _ _).
  - reflexivity.
  - reflexivity.
  - simpl. lia.
  - reflexivity.
  - intros d H. discriminate H.
Defined.

(** X3. A verb method returns a value only after a response of status
    below 400: the token was obtained, the transport answered, and the
    value is either the empty mapping of a DELETE answered 204 or exactly
    what the body decodes to. No response of status 400 or more, no token
    failure and no transport failure ever yields a value. *)
Theorem returned_value_comes_from_success (repr : json -> string)
  (self : WatsonXClient) (verb : Verb) (path : string) (body : json)
  (v : json) :
  result (execute repr self verb path body) = inr v ->
  exists token response,
    get_token (authenticator self) = inr token
    /\ (exists wire,
          network (client self) (request_of self verb path body token)
          = Answered wire response)
    /\ status_code response < 400
    /\ ((verb = DELETE /\ status_code response = 204 /\ v = JObj [])
        \/ json_body response = Decoded v).
Proof.
  intros Hret.
  destruct (get_token (authenticator self)) as [e | token] eqn:Htok.
  { rewrite (execute_without_token repr self verb path body e Htok) in Hret.
    discriminate Hret. }
  destruct (network (client self) (request_of self verb path body token))
    as [e | wire e | wire response] eqn:Hnet.
  { pose proof (execute_refused repr self verb path body token e Htok Hnet)
      as H.
    unfold result in Hret. rewrite H in Hret. discriminate Hret. }
  { pose proof (execute_transport_failure repr self verb path body token
                  wire e Htok Hnet) as H.
    unfold result in Hret. rewrite H in Hret. discriminate Hret. }
  exists token, response. split; [reflexivity |].
  split; [exists wire; exact Hnet |].
  destruct (status_code response >=? 400) eqn:Hstatus.
  - rewrite (execute_from_400 repr self verb path body token wire response
               Htok Hnet Hstatus) in Hret.
    destruct (json_body response) as [[ | | | | | | ] | [ | | ]];
      discriminate Hret.
  - rewrite (execute_below_400 repr self verb path body token wire response
               Htok Hnet Hstatus) in Hret.
    split.
    { destruct (Z.geb_spec (status_code response) 400);
        [discriminate Hstatus | lia]. }
    destruct verb;
      try (right; destruct (json_body response);
           [injection Hret as ->; reflexivity | discriminate Hret]).
    destruct (status_code response =? 204) eqn:E.
    + left. rewrite Z.eqb_eq in E. injection Hret as <-.
      repeat split; [exact E].
    + right. destruct (json_body response);
        [injection Hret as ->; reflexivity | discriminate Hret].
Qed.

Lemma returned_value_comes_from_success_witness :
  exists token response,
    get_token (authenticator
                 (client_answering (mkResponse 201 (Decoded job_started))))
    = inr token
    /\ (exists wire,
          network
            (client (client_answering (mkResponse 201 (Decoded job_started))))
            (request_of
               (client_answering (mkResponse 201 (Decoded job_started)))
               POST "/v3/lhingestion/api/v1/ingestion/jobs" JNull token)
          = Answered wire response)
    /\ status_code response < 400.
Proof.
  destruct (returned_value_comes_from_success repr_ascii
              (client_answering (mkResponse 201 (Decoded job_started)))
              POST "/v3/lhingestion/api/v1/ingestion/jobs" JNull
              job_started eq_refl)
    as [token [response [Htok [Hnet [Hlt _]]]]].
  exists token, response. repeat split; assumption.
Defined.

(** X4. What a verb method records when the remote end answers with a
    status below 400: after handing the request over it notes what went on
    the wire and the status on the span, and it writes the success record,
    with the URL and the status, exactly when it returns a value (not when
    decoding the body fails); the span is closed in both cases. *)
Theorem success_record_iff_returned (repr : json -> string)
  (self : WatsonXClient) (verb : Verb) (path : string) (body : json)
  (token : string) (wire : Request) (response : Response) :
  get_token (authenticator self) = inr token ->
  network (client self) (request_of self verb path body token)
  = Answered wire response ->
  status_code response < 400 ->
  trace (execute repr self verb path body)
  = (dispatch_events self verb path body token
     ++ [Dispatched wire;
         SpanAttr "http.status_code" (LInt (status_code response))]
     ++ match result (execute repr self verb path body) with
        | inr _ =>
            [Log Info ("watsonx_" ++ verb_name verb ++ "_success")
               [("url", LStr (build_url self path));
                ("status_code", LInt (status_code response))]]
        | inl _ => []
        end
     ++ [SpanEnd ("watsonx." ++ verb_name verb)])%list.
Proof.
  intros Htok Hnet Hlt.
  assert (Hstatus : (status_code response >=? 400) = false).
  { destruct (Z.geb_spec (status_code response) 400); [lia | reflexivity]. }
  clear Hlt.
  destruct self as [cfg [ak dsv tok] [to vf hd net]].
  unfold dispatch_events, request_of in *. simpl in *. subst tok.
  destruct verb; unfold_call; simpl; rewrite Hnet; simpl; rewrite Hstatus;
    simpl; destruct (json_body response); split_tests.
Qed.

(** A DELETE answered 204 with no body. *)
Lemma success_record_iff_returned_witness :
  In (Log Info "watsonx_delete_success"
        [("url", LStr "https://test.watsonx.com/api/v3/ingestion_jobs/job-1");
         ("status_code", LInt 204)])
     (trace (execute repr_ascii
               (client_answering (mkResponse 204 (Undecodable NotJSON)))
               DELETE "/v3/ingestion_jobs/job-1" JNull)).
Proof.
  rewrite (success_record_iff_returned repr_ascii
             (client_answering (mkResponse 204 (Undecodable NotJSON)))
             DELETE "/v3/ingestion_jobs/job-1" JNull "tok-1" _
             (mkResponse 204 (Undecodable NotJSON)) eq_refl eq_refl eq_refl).
  simpl. do 6 right. left. reflexivity.
Defined.

(** X5. What a verb method records when the remote end answers with a
    status of 400 or more: the error record, with the URL, the status, the
    extracted message and the decoded body, is written exactly when the
    body decodes to a JSON object. When decoding raises, or gives a JSON
    value that is not an object, nothing is logged after the request
    record. The span is closed in every case. *)
Theorem error_record_iff_object (repr : json -> string)
  (self : WatsonXClient) (verb : Verb) (path : string) (body : json)
  (token : string) (wire : Request) (response : Response) :
  get_token (authenticator self) = inr token ->
  network (client self) (request_of self verb path body token)
  = Answered wire response ->
  status_code response >= 400 ->
  trace (execute repr self verb path body)
  = (dispatch_events self verb path body token
     ++ [Dispatched wire;
         SpanAttr "http.status_code" (LInt (status_code response))]
     ++ match json_body response with
        | Decoded (JObj d) =>
            [Log Error ("watsonx_" ++ verb_name verb ++ "_error")
               [("url", LStr (build_url self path));
                ("status_code", LInt (status_code response));
                ("error",
                  LJson (dict_get d "message"
                           (dict_get d "exception"
                              (JStr (repr (JObj d))))));
                ("response", LJson (JObj d))]]
        | _ => []
        end
     ++ [SpanEnd ("watsonx." ++ verb_name verb)])%list.
Proof.
  intros Htok Hnet Hge.
  assert (Hstatus : (status_code response >=? 400) = true).
  { rewrite Z.geb_le. lia. }
  pose proof (error_status_not_success response Hstatus) as Hfail.
  clear Hge.
  destruct self as [cfg [ak dsv tok] [to vf hd net]].
  unfold dispatch_events, request_of in *. simpl in *. subst tok.
  destruct verb; unfold_call; simpl; rewrite Hnet; simpl; rewrite Hstatus;
    simpl; destruct (json_body response) as [[ | | | | | | ] | [ | | ]];
    simpl; rewrite ?Hfail; reflexivity.
Qed.

(** The DELETE scenario of the test suite: the record carries the status
    404 and the stringified body as message. *)
Lemma error_record_iff_object_witness :
  In (Log Error "watsonx_delete_error"
        [("url",
           LStr "https://test.watsonx.com/api/v3/ingestion_jobs/job-nonexistent");
         ("status_code", LInt 404);
         ("error", LJson (JStr "{'error': 'Ingestion job not found'}"));
         ("response", LJson not_found)])
     (trace (execute repr_ascii
               (client_answering (mkResponse 404 (Decoded not_found)))
               DELETE "/v3/ingestion_jobs/job-nonexistent" JNull)).
Proof.
  rewrite (error_record_iff_object repr_ascii
             (client_answering (mkResponse 404 (Decoded not_found)))
             DELETE "/v3/ingestion_jobs/job-nonexistent" JNull "tok-1" _
             (mkResponse 404 (Decoded not_found)) eq_refl eq_refl).
  - simpl. do 6 right. left. reflexivity.
  - simpl. lia.
Defined.

(* ===================================================================== *)
(** * Further properties of the tool handlers                             *)
(* ===================================================================== *)

(** Extracting the bucket name never raises and emits nothing. *)
Lemma extract_bucket_name_total (a : IngestionArgs) :
  exists bucket, extract_bucket_name a = (inr bucket, []).
Proof.
  unfold extract_bucket_name.
  destruct (bucket_name a) as [b |].
  - exists (Some b). reflexivity.
  - destruct (startswith (file_paths a) "s3://") eqn:Hs.
    + destruct (s3_path_has_third_segment _ Hs) as [segment Hseg].
      unfold third_segment in Hseg. rewrite Hseg.
      exists (Some segment). reflexivity.
    + exists None. reflexivity.
Qed.

(** The requests a verb method sends, one by one. *)
Lemma sent_by_execute (repr : json -> string) (self : WatsonXClient)
  (verb : Verb) (path : string) (body : json) (r : Request) :
  In r (requests_sent (trace (execute repr self verb path body))) ->
  exists token,
    get_token (authenticator self) = inr token
    /\ r = request_of self verb path body token.
Proof.
  rewrite execute_requests.
  destruct (get_token (authenticator self)) as [e | token]; simpl.
  - intros [].
  - intros [<- | []]. exists token. split; reflexivity.
Qed.

(** The requests of [create_ingestion_job] are those of its POST. *)
Lemma create_job_requests (repr : json -> string) (c : WatsonXClient)
  (a : IngestionArgs) :
  exists bucket,
    requests_sent (trace (create_ingestion_job repr c a))
    = requests_sent
        (trace (execute repr c POST "/v3/lhingestion/api/v1/ingestion/jobs"
                  (ingestion_body a bucket))).
Proof.
  destruct (extract_bucket_name_total a) as [bucket Hb].
  exists bucket.
  pose proof (handler_requests repr c (CreateIngestionJob a)) as H.
  simpl in H. rewrite H, Hb. unfold bind, trace. simpl.
  destruct (post repr c _ _) as [r t]. reflexivity.
Qed.

(** X6. Every request [create_ingestion_job] sends is a POST to the
    ingestion-jobs path whose body carries the arguments in their places:
    [job_id], the four fields of [target], [source.file_paths] and
    [source.file_type], [source.bucket_details.bucket_type] and the five
    fields of [execute_config]. [source.file_format_properties], with the
    five CSV options, is present exactly when [file_type] is the string
    [csv], and [engine_id] exactly when an engine is given. *)
Theorem create_job_request_body (repr : json -> string) (c : WatsonXClient)
  (a : IngestionArgs) (r : Request) :
  In r (requests_sent (trace (create_ingestion_job repr c a))) ->
  req_verb r = POST
  /\ req_url r = build_url c "/v3/lhingestion/api/v1/ingestion/jobs"
  /\ exists body,
       req_json r = Some body
       /\ at_path body ["job_id"] = Some (JStr (job_id a))
       /\ at_path body ["target"]
          = Some (JObj [("catalog", JStr (catalog a));
                        ("schema", JStr (schema a));
                        ("table", JStr (table a));
                        ("write_mode", JStr (write_mode a))])
       /\ at_path body ["source"; "file_paths"] = Some (JStr (file_paths a))
       /\ at_path body ["source"; "file_type"] = Some (JStr (file_type a))
       /\ at_path body ["source"; "bucket_details"; "bucket_type"]
          = Some (JStr (bucket_type a))
       /\ at_path body ["execute_config"]
          = Some (JObj [("driver_memory", JStr (driver_memory a));
                        ("driver_cores", JInt (driver_cores a));
                        ("executor_memory", JStr (executor_memory a));
                        ("executor_cores", JInt (executor_cores a));
                        ("num_executors", JInt (num_executors a))])
       /\ at_path body ["source"; "file_format_properties"]
          = (if String.eqb (file_type a) "csv"
             then Some (csv_properties a) else None)
       /\ at_path body ["engine_id"] = option_map JStr (engine_id a).
Proof.
  destruct (create_job_requests repr c a) as [bucket ->].
  intros Hr. destruct (sent_by_execute _ _ _ _ _ _ Hr) as [token [_ ->]].
  split; [reflexivity |]. split; [reflexivity |].
  exists (ingestion_body a bucket). split; [reflexivity |].
  unfold ingestion_body, csv_properties.
  destruct (String.eqb (file_type a) "csv"), (engine_id a);
    repeat split; reflexivity.
Qed.

(** A parquet job on a named engine: no CSV options, the engine present. *)
Lemma create_job_request_body_witness :
  exists body,
    at_path body ["source"; "file_format_properties"] = None
    /\ at_path body ["engine_id"] = Some (JStr "spark473")
    /\ at_path body ["source"; "file_type"] = Some (JStr "parquet").
Proof.
  destruct (create_job_request_body repr_ascii
              (client_answering (mkResponse 200 (Decoded job_started)))
              {| job_id := "job-789"; catalog := "iceberg_data";
                 schema := "default"; table := "partitioned_table";
                 file_paths := "s3://bucket/data/parquet/*.parquet";
                 file_type := "parquet"; bucket_name := None;
                 bucket_type := "ibm_cos"; write_mode := "append";
                 engine_id := Some "spark473"; field_delimiter := ",";
                 line_delimiter := nl; escape_character := "\";
                 header := true; encoding := "UTF-8";
                 driver_memory := "2G"; driver_cores := 1;
                 executor_memory := "4G"; executor_cores := 2;
                 num_executors := 1 |}
              (request_of
                 (client_answering (mkResponse 200 (Decoded job_started)))
                 POST "/v3/lhingestion/api/v1/ingestion/jobs"
                 (ingestion_body
                    {| job_id := "job-789"; catalog := "iceberg_data";
                       schema := "default"; table := "partitioned_table";
                       file_paths := "s3://bucket/data/parquet/*.parquet";
                       file_type := "parquet"; bucket_name := None;
                       bucket_type := "ibm_cos"; write_mode := "append";
                       engine_id := Some "spark473"; field_delimiter := ",";
                       line_delimiter := nl; escape_character := "\";
                       header := true; encoding := "UTF-8";
                       driver_memory := "2G"; driver_cores := 1;
                       executor_memory := "4G"; executor_cores := 2;
                       num_executors := 1 |}
                    (Some "bucket"))
                 "tok-1")
              (or_introl eq_refl))
    as [_ [_ [body [_ [_ [_ [_ [Htype [_ [_ [Hcsv Hengine]]]]]]]]]]].
  exists body. split; [exact Hcsv |]. split; [exact Hengine | exact Htype].
Defined.

(** X7. [create_ingestion_job] and [get_ingestion_job] read fields of the
    client's answer for their log record: when the client returns a
    mapping the handler returns that mapping unchanged, and when it returns
    any other JSON value (a list, a string, a number, [true], [null]) the
    handler raises [AttributeError], although the request was sent and
    answered with success. *)
Theorem reading_handlers_need_a_mapping (repr : json -> string)
  (c : WatsonXClient) (call : ToolCall) (v : json) :
  (exists a, call = CreateIngestionJob a)
  \/ (exists job_id, call = GetIngestionJob job_id) ->
  result (client_call repr c call) = inr v ->
  result (run_tool repr c call)
  = match v with
    | JObj _ => inr v
    | _ => inl (AttributeError
                  ("'" ++ type_name v ++ "' object has no attribute 'get'"))
    end.
Proof.
  intros [[a ->] | [job_id ->]]; unfold_tools.
  - destruct (extract_bucket_name a) as [[e0 | bucket] t0]; simpl;
      [intros H; discriminate H |].
    destruct (post repr c _ _) as [[e1 | w] t1]; simpl;
      intros H; [discriminate H |].
    injection H as ->. destruct v; reflexivity.
  - destruct (get repr c _) as [[e1 | w] t1]; simpl;
      intros H; [discriminate H |].
    injection H as ->. destruct v; reflexivity.
Qed.

(** A job lookup answered 200 with the JSON list [[]]. *)
Lemma reading_handlers_need_a_mapping_witness :
  result (get_ingestion_job repr_ascii
            (client_answering (mkResponse 200 (Decoded (JArr []))))
            "job-123")
  = inl (AttributeError "'list' object has no attribute 'get'").
Proof.
  refine (reading_handlers_need_a_mapping repr_ascii
            (client_answering (mkResponse 200 (Decoded (JArr []))))
            (GetIngestionJob "job-123") (JArr []) _ _).
  - right. exists "job-123". reflexivity.
  - reflexivity.
Defined.

(** X8. [delete_ingestion_job], end to end: once the token is obtained,
    when the remote end answers the handler's DELETE with a status below
    400, the handler returns the empty mapping for status 204, whatever the
    body, and otherwise exactly the value the body decodes to, mapping or
    not; when decoding that body raises, the handler ends with the
    decoder's exception. *)
Theorem delete_job_end_to_end (repr : json -> string) (c : WatsonXClient)
  (job_id : string) (token : string) (wire : Request) (response : Response) :
  get_token (authenticator c) = inr token ->
  network (client c)
    (request_of c DELETE ("/v3/ingestion_jobs/" ++ job_id) JNull token)
  = Answered wire response ->
  status_code response < 400 ->
  result (delete_ingestion_job repr c job_id)
  = if status_code response =? 204 then inr (JObj [])
    else match json_body response with
         | Decoded v => inr v
         | Undecodable why => inl (decode_exn why)
         end.
Proof.
  intros Htok Hnet Hlt.
  assert (Hstatus : (status_code response >=? 400) = false).
  { destruct (Z.geb_spec (status_code response) 400); [lia | reflexivity]. }
  pose proof (execute_below_400 repr c DELETE _ JNull token wire response
                Htok Hnet Hstatus) as Hres.
  cbn [execute] in Hres.
  unfold delete_ingestion_job, try_except, bind, emit, result in *.
  destruct (delete repr c _) as [[e1 | w] t1]; simpl in *; subst;
    destruct (status_code response =? 204); try discriminate Hres;
    try reflexivity;
    destruct (json_body response); try discriminate Hres;
    try reflexivity; exact Hres.
Qed.

Lemma delete_job_end_to_end_witness :
  result (delete_ingestion_job repr_ascii
            (client_answering (mkResponse 204 (Undecodable NotJSON)))
            "job-123")
  = inr (JObj []).
Proof.
  refine (delete_job_end_to_end repr_ascii
            (client_answering (mkResponse 204 (Undecodable NotJSON)))
            "job-123" "tok-1" _ (mkResponse 204 (Undecodable NotJSON))
            _ _ _).
  - reflexivity.
  - reflexivity.
  - simpl. lia.
Defined.

(** X9. [create_schema] returns [response or {}]: when the client returns
    a false value ([null], [false], zero, an empty string, an empty list
    or an empty mapping) the handler returns the empty mapping, and every
    other value is returned unchanged, mapping or not. *)
Theorem create_schema_result (repr : json -> string) (c : WatsonXClient)
  (catalog_id schema_name engine_id custom_path storage_name : string)
  (v : json) :
  result (client_call repr c
            (CreateSchema catalog_id schema_name engine_id custom_path
               storage_name)) = inr v ->
  result (create_schema repr c catalog_id schema_name engine_id custom_path
            storage_name)
  = inr (if truthy v then v else JObj [])
  /\ (truthy v = false ->
      result (create_schema repr c catalog_id schema_name engine_id
                custom_path storage_name) = inr (JObj [])).
Proof.
  unfold_tools.
  destruct (post repr c _ _) as [[e1 | w] t1]; simpl;
    intros H; [discriminate H |].
  injection H as ->. split; [reflexivity |].
  intros ->. reflexivity.
Qed.

(** A schema creation answered 201 with the body [null]. *)
Lemma create_schema_result_witness :
  result (create_schema repr_ascii
            (client_answering (mkResponse 201 (Decoded JNull)))
            "iceberg_data" "sales" "presto-01" "" "")
  = inr (JObj []).
Proof.
  refine (proj2 (create_schema_result repr_ascii
                   (client_answering (mkResponse 201 (Decoded JNull)))
                   "iceberg_data" "sales" "presto-01" "" "" JNull _) _);
    reflexivity.
Defined.

(** X10. [list_ingestion_jobs] counts the jobs before it returns: when the
    client returns a mapping whose [ingestion_jobs] entry has no length
    ([null], a boolean, a number) the handler raises [TypeError], and when
    the client returns a value that is not a mapping it raises
    [AttributeError]; the handler returns in no other case than a mapping
    whose entry is absent or has a length. *)
Theorem list_jobs_result (repr : json -> string) (c : WatsonXClient)
  (start limit : option Z) (v : json) :
  result (get repr c (list_path start limit)) = inr v ->
  result (list_ingestion_jobs repr c start limit)
  = match v with
    | JObj d =>
        match len (dict_get d "ingestion_jobs" (JArr [])) with
        | Some _ => inr v
        | None =>
            inl (TypeError
                   ("object of type '"
                    ++ type_name (dict_get d "ingestion_jobs" (JArr []))
                    ++ "' has no len()"))
        end
    | _ => inl (AttributeError
                  ("'" ++ type_name v ++ "' object has no attribute 'get'"))
    end.
Proof.
  unfold_tools.
  destruct (get repr c _) as [[e1 | w] t1]; simpl;
    intros H; [discriminate H |].
  injection H as ->. destruct v; try reflexivity.
  simpl. destruct (len _); reflexivity.
Qed.

(** A listing answered 200 with [{"ingestion_jobs": 0}]. *)
Lemma list_jobs_result_witness :
  result (list_ingestion_jobs repr_ascii
            (client_answering
               (mkResponse 200 (Decoded (JObj [("ingestion_jobs", JInt 0)]))))
            (Some 0) None)
  = inl (TypeError "object of type 'int' has no len()").
Proof.
  apply (list_jobs_result repr_ascii
           (client_answering
              (mkResponse 200 (Decoded (JObj [("ingestion_jobs", JInt 0)]))))
           (Some 0) None (JObj [("ingestion_jobs", JInt 0)])).
  reflexivity.
Defined.

(** X11. Every request [create_schema] sends is a POST to
    [/v3/catalogs/<catalog_id>/schemas?engine_id=<engine_id>], the two
    identifiers inserted as given; its body holds [name] and [custom_path]
    (the given string, empty or not) and holds [storage_name] exactly when
    the given storage name is not empty. *)
Theorem create_schema_request (repr : json -> string) (c : WatsonXClient)
  (catalog_id schema_name engine_id custom_path storage_name : string)
  (r : Request) :
  In r (requests_sent
          (trace (create_schema repr c catalog_id schema_name engine_id
                    custom_path storage_name))) ->
  req_verb r = POST
  /\ req_url r
     = build_url c ("/v3/catalogs/" ++ catalog_id
                    ++ "/schemas?engine_id=" ++ engine_id)
  /\ req_json r
     = Some (JObj (("name", JStr schema_name)
                   :: ("custom_path", JStr custom_path)
                   :: (if String.eqb storage_name "" then []
                       else [("storage_name", JStr storage_name)]))).
Proof.
  pose proof (handler_requests repr c
                (CreateSchema catalog_id schema_name engine_id custom_path
                   storage_name)) as Hreq.
  cbn [run_tool client_call] in Hreq. rewrite Hreq. clear Hreq.
  match goal with
  | |- In r (requests_sent (trace (post repr c ?p ?b))) -> _ =>
      change (post repr c p b) with (execute repr c POST p b)
  end.
  intros Hr. destruct (sent_by_execute _ _ _ _ _ _ Hr) as [token [_ ->]].
  split; [reflexivity |]. split; [reflexivity |].
  cbn [req_json request_of].
  destruct (String.eqb custom_path "") eqn:Hc;
    [apply String.eqb_eq in Hc; subst custom_path |];
    destruct (String.eqb storage_name ""); reflexivity.
Qed.

(** A schema on object storage, in the root of the bucket. *)
Lemma create_schema_request_witness :
  req_json
    (request_of (client_answering (mkResponse 201 (Decoded (JObj []))))
       POST "/v3/catalogs/iceberg_data/schemas?engine_id=presto-01"
       (JObj [("name", JStr "sales"); ("custom_path", JStr "");
              ("storage_name", JStr "cos-bucket")])
       "tok-1")
  = Some (JObj [("name", JStr "sales"); ("custom_path", JStr "");
                ("storage_name", JStr "cos-bucket")]).
Proof.
  exact (proj2 (proj2 (create_schema_request repr_ascii
                         (client_answering (mkResponse 201 (Decoded (JObj []))))
                         "iceberg_data" "sales" "presto-01" "" "cos-bucket"
                         _ (or_introl eq_refl)))).
Defined.

(** X12. [get_ingestion_job] sends a GET to
    [/v3/lhingestion/api/v1/ingestion/jobs/<job_id>] and
    [delete_ingestion_job] a DELETE to [/v3/ingestion_jobs/<job_id>], a
    different prefix; both insert the job identifier as given, resolve the
    path against the base URL, and send no body. *)
Theorem job_requests (repr : json -> string) (c : WatsonXClient)
  (job_id : string) (r : Request) :
  (In r (requests_sent (trace (get_ingestion_job repr c job_id))) ->
   req_verb r = GET
   /\ req_url r
      = build_url c ("/v3/lhingestion/api/v1/ingestion/jobs/" ++ job_id)
   /\ req_json r = None)
  /\
  (In r (requests_sent (trace (delete_ingestion_job repr c job_id))) ->
   req_verb r = DELETE
   /\ req_url r = build_url c ("/v3/ingestion_jobs/" ++ job_id)
   /\ req_json r = None).
Proof.
  split.
  - pose proof (handler_requests repr c (GetIngestionJob job_id)) as Hreq.
    cbn [run_tool client_call] in Hreq. rewrite Hreq. clear Hreq.
    change (get repr c ("/v3/lhingestion/api/v1/ingestion/jobs/" ++ job_id))
      with (execute repr c GET
              ("/v3/lhingestion/api/v1/ingestion/jobs/" ++ job_id) JNull).
    intros Hr. destruct (sent_by_execute _ _ _ _ _ _ Hr) as [token [_ ->]].
    repeat split; reflexivity.
  - pose proof (handler_requests repr c (DeleteIngestionJob job_id)) as Hreq.
    cbn [run_tool client_call] in Hreq. rewrite Hreq. clear Hreq.
    change (delete repr c ("/v3/ingestion_jobs/" ++ job_id))
      with (execute repr c DELETE ("/v3/ingestion_jobs/" ++ job_id) JNull).
    intros Hr. destruct (sent_by_execute _ _ _ _ _ _ Hr) as [token [_ ->]].
    repeat split; reflexivity.
Qed.

(** The requests of the test suite for the job [job-123]. *)
Lemma job_requests_witness :
  req_url (request_of (client_answering (mkResponse 200 (Decoded job_started)))
             GET "/v3/lhingestion/api/v1/ingestion/jobs/job-123" JNull "tok-1")
  = "https://test.watsonx.com/api/v3/lhingestion/api/v1/ingestion/jobs/job-123"
  /\
  req_url (request_of (client_answering (mkResponse 200 (Decoded job_started)))
             DELETE "/v3/ingestion_jobs/job-123" JNull "tok-1")
  = "https://test.watsonx.com/api/v3/ingestion_jobs/job-123".
Proof.
  split.
  - exact (proj1 (proj2 (proj1 (job_requests repr_ascii
                                  (client_answering
                                     (mkResponse 200 (Decoded job_started)))
                                  "job-123" _)
                           (or_introl eq_refl)))).
  - exact (proj1 (proj2 (proj2 (job_requests repr_ascii
                                  (client_answering
                                     (mkResponse 200 (Decoded job_started)))
                                  "job-123" _)
                           (or_introl eq_refl)))).
Defined.

(** A string without the separator is its own single segment. *)
Lemma split_single (sep : ascii) (w : string) :
  free_of sep w = true -> split sep w = [w].
Proof.
  induction w as [| ch w IH]; simpl; intros H; [reflexivity |].
  apply andb_prop in H. destruct H as [Hch Hw].
  apply negb_true_iff in Hch. rewrite Hch, (IH Hw). reflexivity.
Qed.

(** For [s3://bucket], with no key, the third segment is [bucket] too. *)
Lemma third_segment_without_key (bucket : string) :
  free_of "/" bucket = true ->
  third_segment ("s3://" ++ bucket) = Some bucket.
Proof.
  intros H. unfold third_segment. simpl.
  rewrite (split_single "/" bucket H). reflexivity.
Qed.

(** The requests of [create_ingestion_job], the bucket being known. *)
Lemma create_job_requests_for (repr : json -> string) (c : WatsonXClient)
  (a : IngestionArgs) (bucket : option string) :
  extract_bucket_name a = (inr bucket, []) ->
  requests_sent (trace (create_ingestion_job repr c a))
  = requests_sent
      (trace (execute repr c POST "/v3/lhingestion/api/v1/ingestion/jobs"
                (ingestion_body a bucket))).
Proof.
  intros Hb.
  pose proof (handler_requests repr c (CreateIngestionJob a)) as H.
  cbn [run_tool client_call] in H. rewrite H, Hb. unfold bind, trace.
  cbn [execute].
  destruct (post repr c _ _) as [r t]. reflexivity.
Qed.

(** X13. With no [bucket_name] argument and [file_paths] of the form
    [s3://<bucket>] or [s3://<bucket>/<key>], where [<bucket>] holds no
    slash, the body [create_ingestion_job] posts names [<bucket>] in
    [source.bucket_details.bucket_name], whatever the key; for the bare
    [s3://] that name is the empty string, not [None]. *)
Theorem bucket_of_s3_url (repr : json -> string) (c : WatsonXClient)
  (a : IngestionArgs) (bucket key : string) (r : Request) :
  bucket_name a = None ->
  free_of "/" bucket = true ->
  file_paths a = "s3://" ++ bucket
  \/ file_paths a = "s3://" ++ bucket ++ String "/" key ->
  In r (requests_sent (trace (create_ingestion_job repr c a))) ->
  exists body,
    req_json r = Some body
    /\ at_path body ["source"; "bucket_details"; "bucket_name"]
       = Some (JStr bucket).
Proof.
  intros Hnone Hfree Hpath.
  assert (Hb : extract_bucket_name a = (inr (Some bucket), [])).
  { unfold extract_bucket_name. rewrite Hnone.
    assert (Hseg : nth_error (split "/" (file_paths a)) 2 = Some bucket).
    { destruct Hpath as [-> | ->].
      - exact (third_segment_without_key bucket Hfree).
      - exact (third_segment_is_bucket bucket key Hfree). }
    assert (Hs : startswith (file_paths a) "s3://" = true).
    { destruct Hpath as [-> | ->]; apply startswith_app. }
    rewrite Hs, Hseg. reflexivity. }
  rewrite (create_job_requests_for repr c a (Some bucket) Hb).
  intros Hr. destruct (sent_by_execute _ _ _ _ _ _ Hr) as [token [_ ->]].
  exists (ingestion_body a (Some bucket)).
  split; [reflexivity | apply body_bucket_name].
Qed.

(** The first scenario of the test suite, and the bare [s3://]. *)
Lemma bucket_of_s3_url_witness :
  (exists body,
     req_json
       (request_of (client_answering (mkResponse 200 (Decoded job_started)))
          POST "/v3/lhingestion/api/v1/ingestion/jobs"
          (ingestion_body
             (default_args "job-123" "iceberg_data" "default" "my_table"
                "s3://bucket/data/input.csv") (Some "bucket"))
          "tok-1") = Some body
     /\ at_path body ["source"; "bucket_details"; "bucket_name"]
        = Some (JStr "bucket"))
  /\
  (exists body,
     req_json
       (request_of (client_answering (mkResponse 200 (Decoded job_started)))
          POST "/v3/lhingestion/api/v1/ingestion/jobs"
          (ingestion_body
             (default_args "job-0" "iceberg_data" "default" "my_table" "s3://")
             (Some ""))
          "tok-1") = Some body
     /\ at_path body ["source"; "bucket_details"; "bucket_name"]
        = Some (JStr "")).
Proof.
  split.
  - refine (bucket_of_s3_url repr_ascii
              (client_answering (mkResponse 200 (Decoded job_started)))
              (default_args "job-123" "iceberg_data" "default" "my_table"
                 "s3://bucket/data/input.csv")
              "bucket" "data/input.csv" _ _ _ _ _).
    + reflexivity.
    + reflexivity.
    + right. reflexivity.
    + left. reflexivity.
  - refine (bucket_of_s3_url repr_ascii
              (client_answering (mkResponse 200 (Decoded job_started)))
              (default_args "job-0" "iceberg_data" "default" "my_table" "s3://")
              "" "" _ _ _ _ _).
    + reflexivity.
    + reflexivity.
    + left. reflexivity.
    + left. reflexivity.
Defined.

(** X15. A tool call sends at most one HTTP request, whatever its
    arguments and however it ends: no handler retries, and none issues a
    second request. *)
Theorem tool_sends_at_most_one_request (repr : json -> string)
  (c : WatsonXClient) (call : ToolCall) :
  (List.length (requests_sent (trace (run_tool repr c call))) <= 1)%nat.
Proof.
  assert (Hexec : forall verb path body,
             (List.length
                (requests_sent (trace (execute repr c verb path body)))
              <= 1)%nat).
  { intros verb path body. rewrite execute_requests.
    destruct (get_token (authenticator c)); simpl; lia. }
  destruct call.
  - destruct (extract_bucket_name_total a) as [bucket Hb].
    cbn [run_tool].
    rewrite (create_job_requests_for repr c a bucket Hb). apply Hexec.
  - rewrite handler_requests. cbn [client_call].
    apply (Hexec GET _ JNull).
  - rewrite handler_requests. cbn [client_call].
    apply (Hexec GET _ JNull).
  - rewrite handler_requests. cbn [client_call].
    apply (Hexec DELETE _ JNull).
  - rewrite handler_requests. cbn [client_call].
    apply (Hexec POST).
Qed.

(** X16. When the token manager raises, every tool call ends with that
    very exception and sends no request. *)
Theorem tool_without_token (repr : json -> string) (c : WatsonXClient)
  (call : ToolCall) (e : exn) :
  get_token (authenticator c) = inl e ->
  result (run_tool repr c call) = inl e
  /\ requests_sent (trace (run_tool repr c call)) = [].
Proof.
  intros Htok.
  assert (Hexec : forall verb path body,
             execute repr c verb path body
             = (inl e, trace (execute repr c verb path body))
             /\ requests_sent (trace (execute repr c verb path body)) = []).
  { intros verb path body. split.
    - pose proof (execute_without_token repr c verb path body e Htok) as H.
      unfold result, trace in *.
      destruct (execute repr c verb path body) as [r t]. simpl in *.
      rewrite H. reflexivity.
    - rewrite execute_requests, Htok. reflexivity. }
  split.
  - destruct call as [a | start limit | jid | jid | cid sn eid cp stn];
      unfold_tools.
    + destruct (extract_bucket_name_total a) as [bucket ->]. simpl.
      destruct (Hexec POST "/v3/lhingestion/api/v1/ingestion/jobs"
                  (ingestion_body a bucket)) as [H _].
      cbn [execute] in H. rewrite H. reflexivity.
    + destruct (Hexec GET (list_path start limit) JNull) as [H _].
      cbn [execute] in H. rewrite H. reflexivity.
    + destruct (Hexec GET
                  ("/v3/lhingestion/api/v1/ingestion/jobs/" ++ jid) JNull)
        as [H _].
      cbn [execute] in H. rewrite H. reflexivity.
    + destruct (Hexec DELETE ("/v3/ingestion_jobs/" ++ jid) JNull)
        as [H _].
      cbn [execute] in H. rewrite H. reflexivity.
    + match goal with
      | |- context [post repr c ?p ?b] =>
          destruct (Hexec POST p b) as [H _]
      end.
      cbn [execute] in H. rewrite H. reflexivity.
  - rewrite handler_requests.
    destruct call; cbn [client_call].
    + destruct (extract_bucket_name_total a) as [bucket ->].
      unfold bind, trace.
      destruct (Hexec POST "/v3/lhingestion/api/v1/ingestion/jobs"
                  (ingestion_body a bucket)) as [_ H].
      cbn [execute] in H. unfold trace in H.
      destruct (post repr c _ _) as [r t]. exact H.
    + exact (proj2 (Hexec GET _ JNull)).
    + exact (proj2 (Hexec GET _ JNull)).
    + exact (proj2 (Hexec DELETE _ JNull)).
    + exact (proj2 (Hexec POST _ _)).
Qed.

Lemma tool_without_token_witness :
  result (run_tool repr_ascii client_without_token
            (ListIngestionJobs (Some 0) (Some 10)))
  = inl (Raised "ApiException" "Provided API key could not be found")
  /\ requests_sent
       (trace (run_tool repr_ascii client_without_token
                 (ListIngestionJobs (Some 0) (Some 10)))) = [].
Proof.
  apply (tool_without_token repr_ascii client_without_token
           (ListIngestionJobs (Some 0) (Some 10))).
  reflexivity.
Defined.

(** The client method a tool call awaits is one verb method, and the
    request it hands over is [tool_request]. *)
Lemma client_call_as_execute (repr : json -> string) (c : WatsonXClient)
  (call : ToolCall) :
  exists verb path body,
    client_call repr c call = execute repr c verb path body
    /\ forall token,
         tool_request c call token = request_of c verb path body token.
Proof.
  destruct call as [a | start limit | jid | jid | cid sn eid cp stn];
    cbn [client_call tool_request].
  - destruct (extract_bucket_name_total a) as [bucket Hb]. rewrite Hb.
    exists POST, "/v3/lhingestion/api/v1/ingestion/jobs",
      (ingestion_body a bucket).
    split; [| reflexivity].
    unfold bind. cbn [execute].
    destruct (post repr c _ _) as [r t]. reflexivity.
  - exists GET, (list_path start limit), JNull. split; reflexivity.
  - exists GET, ("/v3/lhingestion/api/v1/ingestion/jobs/" ++ jid), JNull.
    split; reflexivity.
  - exists DELETE, ("/v3/ingestion_jobs/" ++ jid), JNull. split; reflexivity.
  - exists POST, ("/v3/catalogs/" ++ cid ++ "/schemas?engine_id=" ++ eid),
      (JObj (("name", JStr sn)
             :: ("custom_path", JStr cp)
             :: (if String.eqb stn "" then []
                 else [("storage_name", JStr stn)]))).
    split; [| reflexivity].
    cbn [execute].
    destruct (String.eqb cp "") eqn:Hc;
      [apply String.eqb_eq in Hc; subst cp |];
      destruct (String.eqb stn ""); reflexivity.
Qed.

(** X17. End to end, for every tool: once the token is obtained, when the
    remote end answers the tool's request with a status below 400 other
    than 204 and a body that decodes to a non-empty mapping whose
    [ingestion_jobs] entry, if any, has a length, the tool returns exactly
    that mapping. *)
Theorem tool_returns_remote_mapping (repr : json -> string)
  (c : WatsonXClient) (call : ToolCall) (token : string) (wire : Request)
  (response : Response) (d : dict) :
  get_token (authenticator c) = inr token ->
  network (client c) (tool_request c call token) = Answered wire response ->
  status_code response < 400 ->
  status_code response <> 204 ->
  json_body response = Decoded (JObj d) ->
  d <> [] ->
  len (dict_get d "ingestion_jobs" (JArr [])) <> None ->
  result (run_tool repr c call) = inr (JObj d).
Proof.
  intros Htok Hnet Hlt H204 Hbody Hne Hlen.
  assert (Hres : result (client_call repr c call) = inr (JObj d)).
  { destruct (client_call_as_execute repr c call)
      as [verb [path [body [Hcall Hreq]]]].
    rewrite Hcall. rewrite Hreq in Hnet.
    assert (Hstatus : (status_code response >=? 400) = false).
    { destruct (Z.geb_spec (status_code response) 400);
        [lia | reflexivity]. }
    rewrite (execute_below_400 repr c verb path body token wire response
               Htok Hnet Hstatus), Hbody.
    destruct verb; try reflexivity.
    destruct (status_code response =? 204) eqn:E; [| reflexivity].
    rewrite Z.eqb_eq in E. contradiction. }
  clear Hnet.
  destruct call as [a | start limit | jid | jid | cid sn eid cp stn];
    unfold_tools.
  - destruct (extract_bucket_name a) as [[e0 | bucket] t0]; simpl in *;
      [discriminate Hres |].
    destruct (post repr c _ _) as [[e1 | w] t1]; simpl in *;
      [discriminate Hres |].
    injection Hres as ->. reflexivity.
  - destruct (get repr c _) as [[e1 | w] t1]; simpl in *;
      [discriminate Hres |].
    injection Hres as ->. simpl.
    destruct (len (dict_get d "ingestion_jobs" (JArr [])));
      [reflexivity | contradiction].
  - destruct (get repr c _) as [[e1 | w] t1]; simpl in *;
      [discriminate Hres |].
    injection Hres as ->. reflexivity.
  - destruct (delete repr c _) as [[e1 | w] t1]; simpl in *;
      [discriminate Hres | exact Hres].
  - destruct (post repr c _ _) as [[e1 | w] t1]; simpl in *;
      [discriminate Hres |].
    injection Hres as ->. destruct d; [contradiction | reflexivity].
Qed.

(** The POST scenario of the test suite, through the handler. *)
Lemma tool_returns_remote_mapping_witness :
  result (run_tool repr_ascii
            (client_answering (mkResponse 200 (Decoded job_started)))
            (CreateIngestionJob
               (default_args "job-123" "iceberg_data" "default" "my_table"
                  "s3://bucket/data/input.csv")))
  = inr job_started.
Proof.
  refine (tool_returns_remote_mapping repr_ascii
            (client_answering (mkResponse 200 (Decoded job_started)))
            (CreateIngestionJob
               (default_args "job-123" "iceberg_data" "default" "my_table"
                  "s3://bucket/data/input.csv"))
            "tok-1" _ (mkResponse 200 (Decoded job_started))
            [("job_id", JStr "job-123"); ("status", JStr "starting")]
            _ _ _ _ _ _ _).
  - reflexivity.
  - reflexivity.
  - simpl. lia.
  - simpl. lia.
  - reflexivity.
  - intros H. discriminate H.
  - intros H. discriminate H.
Defined.
